(** * generate_formula.py: the formula assembler and its input readers

    A shallow embedding of [read_matrix], [parse_allowed_losses] and
    [get_cnf] of generate_formula.py.  The disk is a finite map from the
    names of its text files to their text, a text being a sequence of
    characters below U+0100; directories, files that do not decode and
    names that cannot be opened for writing are not part of it.  Python
    exceptions are the error side of a result type, and the functions
    that generate_formula.py imports from get_vars and get_clauses are
    an interface ([Helpers]) that [get_cnf] is parameterised by. *)

From Stdlib Require Import Ascii String ZArith Lia.
From stdpp Require Import base tactics option list list_monad numbers.
From stdpp Require Import strings pretty gmap fin_maps fin_sets.

Local Open Scope string_scope.
Local Open Scope Z_scope.

(** ** Exceptions and results *)

Inductive exn : Type :=
  | FileNotFoundError
  | ValueError
  | IndexError
  | KeyError
  | TypeError.

Inductive result (A : Type) : Type :=
  | Ok (a : A)
  | Raise (e : exn).
Arguments Ok {A} a.
Arguments Raise {A} e.

#[global] Instance result_ret : MRet result := λ A a, Ok a.
#[global] Instance result_bind : MBind result := λ A B f m,
  match m with
  | Ok a => f a
  | Raise e => Raise e
  end.
#[global] Instance result_fmap : FMap result := λ A B f m,
  match m with
  | Ok a => Ok (f a)
  | Raise e => Raise e
  end.

Definition is_Ok {A} (r : result A) : Prop := ∃ a, r = Ok a.

(** ** The Python built-ins the source relies on *)

Module Py.

Definition LF : ascii := "010"%char.
Definition CR : ascii := "013"%char.

(** Text-mode reading translates "\r\n" and a lone "\r" into "\n". *)
Fixpoint universal_newlines (s : string) : string :=
  match s with
  | "" => ""
  | String c s' =>
      if decide (c = CR) then
        String LF
          match s' with
          | String c' s'' =>
              if decide (c' = LF) then universal_newlines s''
              else universal_newlines s'
          | "" => ""
          end
      else String c (universal_newlines s')
  end.

(** Cuts a text after each "\n"; every line keeps its line end. *)
Fixpoint split_keepends (s : string) : list string :=
  match s with
  | "" => []
  | String c s' =>
      if decide (c = LF) then String LF "" :: split_keepends s'
      else
        match split_keepends s' with
        | [] => [String c ""]
        | l :: ls => String c l :: ls
        end
  end.

(** [f.readlines()] of a file opened in text mode. *)
Definition readlines (content : string) : list string :=
  split_keepends (universal_newlines content).

(** The characters below U+0100 for which [str.isspace] holds: the
    blanks of ASCII, the separators 28 to 31, next line (133) and the
    no-break space (160). *)
Definition isspace (c : ascii) : bool :=
  let n := nat_of_ascii c in
  ((9 <=? n)%nat && (n <=? 13)%nat) || ((28 <=? n)%nat && (n <=? 32)%nat)
  || (n =? 133)%nat || (n =? 160)%nat.

(** [s.split()]: the maximal runs of non-blank characters. *)
Fixpoint split (s : string) : list string :=
  match s with
  | "" => []
  | String c s' =>
      if isspace c then split s'
      else
        match s' with
        | "" => [String c ""]
        | String c' _ =>
            if isspace c' then String c "" :: split s'
            else
              match split s' with
              | [] => [String c ""]
              | w :: ws => String c w :: ws
              end
        end
  end.

(** [s.split(sep)] for a one-character separator: empty fields are kept. *)
Fixpoint split_on (sep : ascii) (s : string) : list string :=
  match s with
  | "" => [""]
  | String c s' =>
      if decide (c = sep) then "" :: split_on sep s'
      else
        match split_on sep s' with
        | [] => [String c ""]
        | w :: ws => String c w :: ws
        end
  end.

Fixpoint lstrip (s : string) : string :=
  match s with
  | "" => ""
  | String c s' => if isspace c then lstrip s' else s
  end.

Definition strip (s : string) : string :=
  String.rev (lstrip (String.rev (lstrip s))).

Definition digit (c : ascii) : option Z :=
  let n := nat_of_ascii c in
  if ((48 <=? n)%nat && (n <=? 57)%nat)%bool
  then Some (Z.of_nat n - 48) else None.

(** Decimal digits, single underscores allowed between two digits.
    [after_digit] tells whether the previous character was a digit. *)
Fixpoint digits (acc : Z) (after_digit : bool) (s : string) : option Z :=
  match s with
  | "" => if after_digit then Some acc else None
  | String c s' =>
      match digit c with
      | Some d => digits (10 * acc + d) true s'
      | None =>
          if decide (c = "_"%char) then
            if after_digit then digits acc false s' else None
          else None
      end
  end.

(** The blanks that [int] drops around a numeral: the blanks of C and
    the two blanks beyond ASCII, but not the separators 28 to 31. *)
Definition int_space (c : ascii) : bool :=
  let n := nat_of_ascii c in
  ((9 <=? n)%nat && (n <=? 13)%nat) || (n =? 32)%nat
  || (n =? 133)%nat || (n =? 160)%nat.

Fixpoint int_lstrip (s : string) : string :=
  match s with
  | "" => ""
  | String c s' => if int_space c then int_lstrip s' else s
  end.

Definition int_strip (s : string) : string :=
  String.rev (int_lstrip (String.rev (int_lstrip s))).

(** The number of digits of a numeral; signs and underscores do not
    count, leading zeros do. *)
Fixpoint digit_count (s : string) : nat :=
  match s with
  | "" => 0
  | String c s' =>
      (match digit c with Some _ => 1 | None => 0 end + digit_count s')%nat
  end.

(** The interpreter's limit on the digits of a numeral, at its default
    (CPython 3.11 and later). *)
Definition max_str_digits : nat := 4300.

(** [int(s)]: surrounding blanks are dropped, then an optional sign,
    then the digits.  Anything else, and a numeral of more digits than
    the limit, is a ValueError. *)
Definition int (s : string) : result Z :=
  let numeral := int_strip s in
  let body :=
    match numeral with
    | String "-" s' => Z.opp <$> digits 0 false s'
    | String "+" s' => digits 0 false s'
    | s' => digits 0 false s'
    end in
  if bool_decide (digit_count numeral ≤ max_str_digits)%nat
  then from_option Ok (Raise ValueError) body
  else Raise ValueError.

(** Values that the variable mapping holds: an index, or a list. *)
#[warnings="-register-all"]
Inductive val : Type :=
  | Int (z : Z)
  | List (l : list val).

(** [str(v)], as an f-string field formats it. *)
Fixpoint str (v : val) : string :=
  match v with
  | Int z => pretty z
  | List l =>
      "[" +:+
      (fix items (l : list val) : string :=
         match l with
         | [] => ""
         | [x] => str x
         | x :: l' => str x +:+ ", " +:+ items l'
         end) l
      +:+ "]"
  end.

(** [v[i]]: a negative [i] counts from the end of the list. *)
Definition getitem (v : val) (i : Z) : result val :=
  match v with
  | Int _ => Raise TypeError
  | List l =>
      let n := Z.of_nat (length l) in
      let j := if i <? 0 then i + n else i in
      if (0 <=? j) && (j <? n)
      then from_option Ok (Raise IndexError) (l !! Z.to_nat j)
      else Raise IndexError
  end.

(** [d[k]] on a dict. *)
Definition dict_get (d : gmap string val) (k : string) : result val :=
  from_option Ok (Raise KeyError) (d !! k).

(** [f.write(s)] and [f.writelines(lines)] on the text written so far. *)
Definition write (f : string) (s : string) : string := f +:+ s.

Definition writelines (f : string) (lines : list string) : string :=
  foldl write f lines.

(** [matrix[0]] on a list. *)
Definition first {A} (l : list A) : result A :=
  from_option Ok (Raise IndexError) (head l).

(** [open(filename, 'r')] followed by reading the whole file: the text
    of the file if the disk has a text file of that name. *)
Definition open_read (fs : gmap string string) (filename : string)
  : result string :=
  from_option Ok (Raise FileNotFoundError) (fs !! filename).

End Py.

(** ** read_matrix *)

(** The parsing part of [read_matrix], on the text of the file. *)
Definition read_matrix_text (content : string) : result (list (list Z)) :=
  let lines := drop 2 (Py.readlines content) in
  mapM (λ line, mapM Py.int (Py.split line)) lines.

Definition read_matrix (fs : gmap string string) (filename : string)
  : result (list (list Z)) :=
  content ← Py.open_read fs filename;
  read_matrix_text content.

(** ** parse_allowed_losses *)

(** [not filename]: [None] and the empty string are both false. *)
Definition falsy (filename : option string) : bool :=
  match filename with
  | None => true
  | Some f => bool_decide (f = "")
  end.

Definition parse_allowed_losses (fs : gmap string string)
    (filename : option string) (num_mutations : Z) : result (gset Z) :=
  if falsy filename then
    Ok (list_to_set (seqZ 0 num_mutations))
  else
    content ← Py.open_read fs (default "" filename);
    let lines := Py.readlines content in
    if bool_decide (0 < length lines)%nat then
      let allowed := Py.split_on ","%char (default "" (head lines)) in
      ints ← mapM Py.int allowed;
      Ok (list_to_set ints)
    else Ok ∅.

(** ** The imported functions

    get_vars and get_clauses are imported by generate_formula.py; what
    [get_cnf] needs of them is their signatures.  They build lists and
    dicts from their arguments and nothing else, so they are functions
    here: each call is taken to return, without an exception.  A
    category of the variable mapping is a [Py.val]. *)

Class Helpers : Type := {
  create_variable_matrices : list (list Z) → Z → Z → gmap string Py.val;
  generate_is_one : list (list Z) → Py.val → Py.val → Py.val → Py.val;
  get_clauses_no_forbidden : Py.val → Py.val → Py.val → Py.val → list string;
  get_clauses_not_one_and_two : Py.val → Py.val → list string;
  get_row_duplicate_clauses : Py.val → Py.val → list string;
  get_col_duplicate_clauses : Py.val → Py.val → list string;
  get_col_pairs_equal_clauses : Py.val → Py.val → Py.val → list string;
  get_row_pairs_equal_clauses : Py.val → Py.val → Py.val → list string;
  constrain_fp : Py.val → bool → list string;
  at_least_one : Py.val → list string
}.

(** ** get_cnf *)

(** The ten clause lists, under the names [get_cnf] gives them. *)
Record families : Type := {
  forbidden_clauses : list string;
  not_one_and_two_clauses : list string;
  row_duplicate_clauses : list string;
  col_duplicate_clauses : list string;
  col_pairs_equal_clauses : list string;
  row_pairs_equal_clauses : list string;
  one_row_duplicate : list string;
  one_col_duplicate : list string;
  at_least_one_row_dup : list string;
  at_least_one_col_dup : list string;
  fam_col_is_duplicate : Py.val
}.

(** Lines 42 to 71: the categories are looked up in the mapping and
    handed to the clause generators. *)
Definition clause_families `{Helpers} (matrix : list (list Z))
    (variables : gmap string Py.val) : result families :=
  false_positives ← Py.dict_get variables "false_positives";
  false_negatives ← Py.dict_get variables "false_negatives";
  pair_in_col_equal ← Py.dict_get variables "pair_in_col_equal";
  pair_in_row_equal ← Py.dict_get variables "pair_in_row_equal";
  col_is_duplicate ← Py.dict_get variables "col_is_duplicate";
  row_is_duplicate ← Py.dict_get variables "row_is_duplicate";
  is_two ← Py.dict_get variables "is_two";
  let is_one := generate_is_one matrix false_positives false_negatives is_two in
  Ok {|
    forbidden_clauses :=
      get_clauses_no_forbidden is_one is_two row_is_duplicate col_is_duplicate;
    not_one_and_two_clauses := get_clauses_not_one_and_two is_one is_two;
    row_duplicate_clauses :=
      get_row_duplicate_clauses pair_in_col_equal row_is_duplicate;
    col_duplicate_clauses :=
      get_col_duplicate_clauses pair_in_row_equal col_is_duplicate;
    col_pairs_equal_clauses :=
      get_col_pairs_equal_clauses is_one is_two pair_in_col_equal;
    row_pairs_equal_clauses :=
      get_row_pairs_equal_clauses is_one is_two pair_in_row_equal;
    one_row_duplicate := constrain_fp row_is_duplicate false;
    one_col_duplicate := constrain_fp col_is_duplicate false;
    at_least_one_row_dup := at_least_one row_is_duplicate;
    at_least_one_col_dup := at_least_one col_is_duplicate;
    fam_col_is_duplicate := col_is_duplicate
  |}.

Definition nl : string := String Py.LF "".

(** Lines 73 to 84: the header line, computed only for unigen. *)
Definition first_line (fam : families) (num_cols : nat) (unigen : bool)
  : result string :=
  if unigen then
    let num_clauses :=
      (length (forbidden_clauses fam) + length (not_one_and_two_clauses fam)
       + (length (row_duplicate_clauses fam) + length (col_duplicate_clauses fam))
       + (length (col_pairs_equal_clauses fam) + length (row_pairs_equal_clauses fam))
       + (length (one_row_duplicate fam) + length (one_col_duplicate fam))
       + (length (at_least_one_row_dup fam) + length (at_least_one_col_dup fam)))%nat in
    num_vars ← Py.getitem (fam_col_is_duplicate fam) (Z.of_nat num_cols - 1);
    Ok ("p cnf " +:+ Py.str num_vars +:+ " " +:+ pretty num_clauses +:+ nl)
  else Ok "".

(** Lines 86 to 105: the file is opened for writing, which empties it,
    and written front to back. *)
Definition write_formula (fam : families) (unigen : bool) (line : string)
  : string :=
  let f := "" in
  let f := if unigen then Py.write f line else f in
  let f := Py.writelines f (forbidden_clauses fam) in
  let f := Py.writelines f (not_one_and_two_clauses fam) in
  let f := Py.writelines f (row_duplicate_clauses fam) in
  let f := Py.writelines f (col_duplicate_clauses fam) in
  let f := Py.writelines f (col_pairs_equal_clauses fam) in
  let f := Py.writelines f (row_pairs_equal_clauses fam) in
  let f := Py.writelines f (one_row_duplicate fam) in
  let f := Py.writelines f (one_col_duplicate fam) in
  let f := Py.writelines f (at_least_one_row_dup fam) in
  let f := Py.writelines f (at_least_one_col_dup fam) in
  f.

(** [get_cnf] returns the variable mapping and leaves the formula in the
    file [write_filename], which is taken to open for writing. *)
Definition get_cnf `{Helpers} (fs : gmap string string)
    (read_filename write_filename : string) (s t : Z) (unigen : bool)
    (losses_filename : option string)
  : result (gmap string Py.val * gmap string string) :=
  matrix ← read_matrix fs read_filename;
  let num_rows := length matrix in
  row0 ← Py.first matrix;
  let num_cols := length row0 in
  let variables := create_variable_matrices matrix s t in
  allowed_losses ← parse_allowed_losses fs losses_filename (Z.of_nat (length row0));
  fam ← clause_families matrix variables;
  line ← first_line fam num_cols unigen;
  let f := write_formula fam unigen line in
  Ok (variables, <[write_filename := f]> fs).

(** ** Stand-ins to run [get_cnf] on examples *)

(** A block of consecutive indices, [rows] by [cols], starting at [first]. *)
Fixpoint fresh_matrix (first : Z) (rows cols : nat) : list (list Z) :=
  match rows with
  | O => []
  | S rows' =>
      seqZ first (Z.of_nat cols)
        :: fresh_matrix (first + Z.of_nat cols) rows' cols
  end.

Fixpoint fresh_cube (first : Z) (n1 n2 n3 : nat) : list (list (list Z)) :=
  match n1 with
  | O => []
  | S n1' =>
      fresh_matrix first n2 n3
        :: fresh_cube (first + Z.of_nat (n2 * n3)) n1' n2 n3
  end.

Definition of_row (r : list Z) : Py.val := Py.List (Py.Int <$> r).
Definition of_matrix (m : list (list Z)) : Py.val := Py.List (of_row <$> m).
Definition of_cube (c : list (list (list Z))) : Py.val :=
  Py.List (of_matrix <$> c).

(** An allocator to run examples with: consecutive indices from 1, a
    matrix of them for each of the three categories of cells, a cube
    for each of the two categories of pairs, and one index for every
    row and for every column, the columns last. *)
Definition probe_variables (matrix : list (list Z)) (s t : Z)
  : gmap string Py.val :=
  let n := length matrix in
  let m := length (default [] (head matrix)) in
  let cells := Z.of_nat (n * m) in
  let o_fp := 1 in
  let o_fn := o_fp + cells in
  let o_two := o_fn + cells in
  let o_pc := o_two + cells in
  let o_pr := o_pc + Z.of_nat (n * (n * m)) in
  let o_row := o_pr + Z.of_nat (m * (m * n)) in
  let o_col := o_row + Z.of_nat n in
  <["false_positives" := of_matrix (fresh_matrix o_fp n m)]>
  (<["false_negatives" := of_matrix (fresh_matrix o_fn n m)]>
  (<["is_two" := of_matrix (fresh_matrix o_two n m)]>
  (<["pair_in_col_equal" := of_cube (fresh_cube o_pc n n m)]>
  (<["pair_in_row_equal" := of_cube (fresh_cube o_pr m m n)]>
  (<["row_is_duplicate" := of_row (seqZ o_row (Z.of_nat n))]>
  (<["col_is_duplicate" := of_row (seqZ o_col (Z.of_nat m))]>
   ∅)))))).

(** Every clause generator of [probe] returns one DIMACS comment line
    with its own name, so the place of each family in the written file
    can be read off; the two that are called for the rows and for the
    columns add the category they were given. *)
Definition probe : Helpers := {|
  create_variable_matrices := probe_variables;
  generate_is_one := λ _ fp _ _, fp;
  get_clauses_no_forbidden := λ _ _ _ _, ["c no_forbidden" +:+ nl];
  get_clauses_not_one_and_two := λ _ _, ["c not_one_and_two" +:+ nl];
  get_row_duplicate_clauses := λ _ _, ["c row_duplicate" +:+ nl];
  get_col_duplicate_clauses := λ _ _, ["c col_duplicate" +:+ nl];
  get_col_pairs_equal_clauses := λ _ _ _, ["c col_pairs_equal" +:+ nl];
  get_row_pairs_equal_clauses := λ _ _ _, ["c row_pairs_equal" +:+ nl];
  constrain_fp := λ category _,
    ["c constrain_fp " +:+ Py.str category +:+ nl];
  at_least_one := λ category,
    ["c at_least_one " +:+ Py.str category +:+ nl]
|}.

Definition matrix_txt : string :=
  "2" +:+ nl +:+ "2" +:+ nl +:+ "0 1" +:+ nl +:+ "1 0" +:+ nl.

Definition disk : gmap string string :=
  <["m.txt" := matrix_txt]> (<["losses.txt" := "0" +:+ nl]> ∅).

(** ** Notions used in the statements *)

(** The text of a list of strings written one after the other. *)
Definition joined (lines : list string) : string := foldr String.app "" lines.

(** The clause strings of a run, in the order [get_cnf] writes them. *)
Definition written_clauses (fam : families) : list string :=
  forbidden_clauses fam ++ not_one_and_two_clauses fam
  ++ row_duplicate_clauses fam ++ col_duplicate_clauses fam
  ++ col_pairs_equal_clauses fam ++ row_pairs_equal_clauses fam
  ++ one_row_duplicate fam ++ one_col_duplicate fam
  ++ at_least_one_row_dup fam ++ at_least_one_col_dup fam.

(** The number of line ends in a text. *)
Fixpoint line_ends (s : string) : nat :=
  match s with
  | "" => 0
  | String c s' => (if decide (c = Py.LF) then 1 else 0) + line_ends s'
  end.

(** A line of text without its line end. *)
Fixpoint no_line_end (s : string) : bool :=
  match s with
  | "" => true
  | String c s' =>
      negb (bool_decide (c = Py.LF)) && negb (bool_decide (c = Py.CR))
      && no_line_end s'
  end.

(** The mapping and the formula of a run of [get_cnf]. *)
Definition formula_of (wf : string)
    (r : gmap string Py.val * gmap string string)
  : gmap string Py.val * option string :=
  (r.1, r.2 !! wf).

(** The order of the clause groups that the spec lists. *)
Definition spec_order (fam : families) : list string :=
  not_one_and_two_clauses fam ++ forbidden_clauses fam
  ++ (col_pairs_equal_clauses fam ++ row_pairs_equal_clauses fam)
  ++ (row_duplicate_clauses fam ++ col_duplicate_clauses fam)
  ++ (one_row_duplicate fam ++ one_col_duplicate fam)
  ++ (at_least_one_row_dup fam ++ at_least_one_col_dup fam).

(** ** Runs on small disks *)

(** The mapping of the 2 by 2 example for s = t = 2. *)
Definition probe_vars : gmap string Py.val :=
  probe_variables [[0; 1]; [1; 0]] 2 2.

(** What the runs of [probe] on [disk] leave in "out.cnf". *)
Definition formula_unigen : string :=
  Eval vm_compute in
    match get_cnf (H := probe) disk "m.txt" "out.cnf" 2 2 true None with
    | Ok r => default "" (r.2 !! "out.cnf")
    | Raise _ => ""
    end.

Definition formula_plain : string :=
  Eval vm_compute in
    match get_cnf (H := probe) disk "m.txt" "out.cnf" 2 2 false None with
    | Ok r => default "" (r.2 !! "out.cnf")
    | Raise _ => ""
    end.

(** The clause lists of these runs. *)
Definition probe_families : result families :=
  Eval vm_compute in clause_families (H := probe) [[0; 1]; [1; 0]] probe_vars.



(** ** generate_samples.py *)

(** [s[1:]] on a string. *)
Definition slice_from_1 (s : string) : string :=
  match s with
  | "" => ""
  | String _ s' => s'
  end.

(** [convert_unigen_to_quicksample]: the unigen file is opened for
    reading, then the samples file is opened for writing, which empties
    it; only then are the lines read, and one line is written for each
    of them. *)
Definition convert_unigen_to_quicksample (fs : gmap string string)
    (unigen_outfile samples_outfile : string) : result (gmap string string) :=
  _ ← Py.open_read fs unigen_outfile;
  let fs := <[samples_outfile := ""]> fs in
  let unigen_lines := Py.readlines (default "" (fs !! unigen_outfile)) in
  let samples_file :=
    foldl (λ f unigen_sample,
             Py.write f (slice_from_1 (Py.strip unigen_sample) +:+ nl))
      "" unigen_lines in
  Ok (<[samples_outfile := samples_file]> fs).

(** Lines 143 to 145 and 160 to 166 of the driver: the names of the
    files it works on, computed from the name of the matrix file. *)
Definition shortened_filename (filename : string) : string :=
  default "" (head (Py.split_on "."%char filename)).

Definition cnf_filename (filename : string) : string :=
  shortened_filename filename +:+ ".tmp.formula.cnf".

Definition variables_filename (filename : string) : string :=
  shortened_filename filename +:+ ".variables".

Definition unigen_outfile (filename : string) : string :=
  cnf_filename filename +:+ ".unigen".

Definition samples_outfile (filename : string) : string :=
  cnf_filename filename +:+ ".samples.valid".

Definition valid_solutions (filename : string) : string :=
  shortened_filename filename +:+ ".tmp.formula.cnf.samples.valid".

(** [clean_up]: the commands it hands to [os.system], in order. *)
Definition clean_up (shortened_filename : string) (unigen : bool) : list string :=
  let remove_formula := "rm " +:+ shortened_filename +:+ ".tmp.formula.cnf" in
  let remove_samples :=
    "rm " +:+ shortened_filename +:+ ".tmp.formula.cnf.samples" in
  let remove_valid :=
    "rm " +:+ shortened_filename +:+ ".tmp.formula.cnf.samples.valid" in
  let remove_vars := "rm " +:+ shortened_filename +:+ ".variables" in
  [remove_formula; remove_valid; remove_vars]
  ++ (if unigen then
        let remove_unigen_file :=
          "rm " +:+ shortened_filename +:+ ".tmp.formula.cnf.unigen" in
        [remove_unigen_file]
      else [remove_samples]).

(** ** Texts in the formats the readers expect *)

(** Every character of a text passes a test. *)
Fixpoint all_chars (P : ascii → bool) (s : string) : bool :=
  match s with
  | "" => true
  | String c s' => P c && all_chars P s'
  end.

Definition blank (s : string) : bool := all_chars Py.isspace s.
Definition numeral_blank (s : string) : bool := all_chars Py.int_space s.
Definition no_numeral_blank (s : string) : bool :=
  all_chars (λ c, negb (Py.int_space c)) s.
Definition is_digit (c : ascii) : bool := bool_decide (is_Some (Py.digit c)).

(** The number of decimal digits of an integer. *)
Definition digits_of (z : Z) : nat := String.length (pretty (Z.abs z)).
Definition no_blank (s : string) : bool := all_chars (λ c, negb (Py.isspace c)) s.
Definition no_char (a : ascii) (s : string) : bool :=
  all_chars (λ c, negb (bool_decide (c = a))) s.

(** [sep.join(l)]. *)
Fixpoint join (sep : string) (l : list string) : string :=
  match l with
  | [] => ""
  | [x] => x
  | x :: l' => x +:+ sep +:+ join sep l'
  end.

(** A matrix written the way the matrix file has it after its header:
    one line per row, the cells in decimal, separated by one blank. *)
Definition render_row (row : list Z) : string := join " " (pretty <$> row).

Definition render_matrix (rows : list (list Z)) : string :=
  joined ((λ row, render_row row +:+ nl) <$> rows).

(** Column indices written as one line, separated by commas. *)
Definition render_losses (columns : list Z) : string :=
  join "," (pretty <$> columns) +:+ nl.

(** A text with every line end written as carriage return, line feed. *)
Fixpoint to_crlf (s : string) : string :=
  match s with
  | "" => ""
  | String c s' =>
      if decide (c = Py.LF) then String Py.CR (String Py.LF (to_crlf s'))
      else String c (to_crlf s')
  end.

(** The seven categories that [get_cnf] looks up in the mapping. *)
Definition categories : list string :=
  ["false_positives"; "false_negatives"; "pair_in_col_equal";
   "pair_in_row_equal"; "col_is_duplicate"; "row_is_duplicate"; "is_two"].

(** The characters of a decimal numeral. *)
Definition decimal_char (c : ascii) : bool :=
  bool_decide (c = "-"%char) || bool_decide (is_Some (Py.digit c)).

(** A line as [readlines] returns it: a text without line ends,
    closed by a line feed unless it is the last of the file. *)
Definition is_line (l : string) : Prop :=
  ∃ body, no_line_end body = true ∧ (l = body +:+ nl ∨ l = body).

(** [probe] with an allocator that leaves one category out. *)
Definition probe_without (key : string) : Helpers := {|
  create_variable_matrices := λ matrix s t,
    delete key (probe_variables matrix s t);
  generate_is_one := @generate_is_one probe;
  get_clauses_no_forbidden := @get_clauses_no_forbidden probe;
  get_clauses_not_one_and_two := @get_clauses_not_one_and_two probe;
  get_row_duplicate_clauses := @get_row_duplicate_clauses probe;
  get_col_duplicate_clauses := @get_col_duplicate_clauses probe;
  get_col_pairs_equal_clauses := @get_col_pairs_equal_clauses probe;
  get_row_pairs_equal_clauses := @get_row_pairs_equal_clauses probe;
  constrain_fp := @constrain_fp probe;
  at_least_one := @at_least_one probe
|}.

(** A matrix file with a ragged matrix, an empty row and a negative
    cell; a matrix file that ends after its header; one whose first row
    is blank. *)
Definition ragged_matrix : list (list Z) := [[0; 1; -1]; []; [10]].

Definition ragged_txt : string :=
  "3" +:+ nl +:+ "3" +:+ nl +:+ render_matrix ragged_matrix.

Definition ragged_disk : gmap string string := {[ "m.txt" := ragged_txt ]}.

Definition header_only_disk : gmap string string :=
  {[ "m.txt" := "2" +:+ nl +:+ "2" +:+ nl ]}.

Definition blank_row_disk : gmap string string :=
  {[ "m.txt" := "1" +:+ nl +:+ "0" +:+ nl +:+ nl ]}.

(** Allowed-losses files: two columns and a second line; the same
    first line alone; a comma at the end of the line. *)
Definition losses_disk : gmap string string :=
  {[ "losses.txt" := render_losses [3; 0] +:+ "7" +:+ nl ]}.

Definition losses_disk' : gmap string string :=
  {[ "losses.txt" := render_losses [3; 0] ]}.

Definition comma_disk : gmap string string :=
  {[ "losses.txt" := "0,1," +:+ nl ]}.

(** A unigen file of two samples, and one with blanks around them. *)
Definition unigen_disk : gmap string string :=
  {[ "f.unigen" := "v1 -2 0" +:+ nl +:+ "v-1 2 0" +:+ nl ]}.

Definition padded_unigen_disk : gmap string string :=
  {[ "f.unigen" := "  v1 -2 0 " +:+ nl +:+ nl +:+ "v-1 2 0" ]}.

Definition unigen_samples : list string := ["v1 -2 0"; "v-1 2 0"].

(** The formula of the 2 by 2 example under the name the driver gives
    it. *)
Definition driver_disk : gmap string string :=
  <["m.tmp.formula.cnf" := formula_plain]> disk.

(** Closed equations and decidable facts are settled by evaluation. *)
Ltac by_evaluation :=
  lazymatch goal with
  | |- _ = ?r => vm_cast_no_check (eq_refl r)
  | |- _ => apply (bool_decide_unpack _); vm_cast_no_check I
  end.

(** ** Basic facts on results and strings *)

Lemma bind_Ok {A B} (m : result A) (g : A → result B) b :
  m ≫= g = Ok b ↔ ∃ a, m = Ok a ∧ g a = Ok b.
Proof.
  destruct m as [a|e]; simpl; split.
  - intros Hg. by exists a.
  - by intros (a' & [= <-] & Hg).
  - discriminate.
  - by intros (a' & [=] & _).
Qed.

Section result_facts.
Context {A B : Type}.
Implicit Types (f : A → result B) (l : list A) (k : list B).

Lemma mapM_Ok_Forall2 f l k :
  mapM f l = Ok k ↔ Forall2 (λ x y, f x = Ok y) l k.
Proof.
  revert k. induction l as [|x l IH]; intros k; simpl.
  - split.
    + intros [= <-]. constructor.
    + by inversion 1.
  - split.
    + intros (y & Hy & (k' & Hk' & [= <-])%bind_Ok)%bind_Ok.
      constructor; [done|]. by apply IH.
    + inversion 1 as [|? y ? k' Hy Hk']; subst.
      apply bind_Ok. exists y. split; [done|].
      apply bind_Ok. exists k'. split; [by apply IH|done].
Qed.

Lemma mapM_is_Ok f l : is_Ok (mapM f l) ↔ Forall (λ x, is_Ok (f x)) l.
Proof.
  induction l as [|x l IH]; simpl.
  - split; [constructor | by exists []].
  - split.
    + intros [k (y & Hy & (k' & Hk' & _)%bind_Ok)%bind_Ok].
      constructor; [by exists y | apply IH; by exists k'].
    + intros [[y Hy] [k' Hk']%IH]%Forall_cons.
      exists (y :: k'). by rewrite Hy; simpl; rewrite Hk'.
Qed.

Lemma mapM_Raise f l e :
  mapM f l = Raise e → ∃ x, x ∈ l ∧ f x = Raise e.
Proof.
  induction l as [|x l IH]; simpl; [discriminate|].
  destruct (f x) as [y|e'] eqn:Hx; simpl.
  - destruct (mapM f l) as [k|e'']; simpl; [discriminate|].
    intros [= ->]. destruct IH as (x' & Hin & Hx'); [done|].
    exists x'. split; [by right | done].
  - intros [= ->]. exists x. split; [by left | done].
Qed.

End result_facts.

Lemma app_String c (s1 s2 : string) : String c s1 +:+ s2 = String c (s1 +:+ s2).
Proof. reflexivity. Qed.

Lemma app_empty_l (s : string) : "" +:+ s = s.
Proof. reflexivity. Qed.

Lemma app_empty_r (s : string) : s +:+ "" = s.
Proof. induction s as [|c s IH]; [done|]. by rewrite app_String, IH. Qed.

Lemma app_assoc_s (s1 s2 s3 : string) : (s1 +:+ s2) +:+ s3 = s1 +:+ (s2 +:+ s3).
Proof. induction s1 as [|c s1 IH]; [done|]. by rewrite !app_String, IH. Qed.

Lemma joined_app (l1 l2 : list string) : joined (l1 ++ l2) = joined l1 +:+ joined l2.
Proof.
  induction l1 as [|x l1 IH]; [done|].
  simpl. by rewrite IH, app_assoc_s.
Qed.

Lemma writelines_joined (f : string) (lines : list string) :
  Py.writelines f lines = f +:+ joined lines.
Proof.
  unfold Py.writelines. revert f.
  induction lines as [|x lines IH]; intros f; simpl.
  - by rewrite app_empty_r.
  - rewrite IH. unfold Py.write. by rewrite app_assoc_s.
Qed.

Lemma write_formula_joined (fam : families) (unigen : bool) (line : string) :
  write_formula fam unigen line
  = (if unigen then line else "") +:+ joined (written_clauses fam).
Proof.
  unfold write_formula, written_clauses.
  rewrite !writelines_joined, !joined_app, !app_assoc_s.
  destruct unigen; [|done]. unfold Py.write. by rewrite app_empty_l.
Qed.

(** What a successful run of [get_cnf] went through. *)
Lemma get_cnf_Ok `{Helpers} fs rf wf s t unigen lf v fs' :
  get_cnf fs rf wf s t unigen lf = Ok (v, fs') ↔
  ∃ matrix row0 allowed fam line,
    read_matrix fs rf = Ok matrix ∧ head matrix = Some row0
    ∧ parse_allowed_losses fs lf (Z.of_nat (length row0)) = Ok allowed
    ∧ v = create_variable_matrices matrix s t
    ∧ clause_families matrix v = Ok fam
    ∧ first_line fam (length row0) unigen = Ok line
    ∧ fs' = <[wf := write_formula fam unigen line]> fs.
Proof.
  unfold get_cnf. split.
  - intros (matrix & Hm & (row0 & Hr & (al & Ha & (fam & Hf
      & (line & Hl & [= <- <-])%bind_Ok)%bind_Ok)%bind_Ok)%bind_Ok)%bind_Ok.
    exists matrix, row0, al, fam, line. repeat split; try done.
    unfold Py.first in Hr. by destruct (head matrix); simplify_eq/=.
  - intros (matrix & row0 & al & fam & line & Hm & Hr & Ha & -> & Hf & Hl & ->).
    rewrite Hm; simpl. unfold Py.first. rewrite Hr; simpl.
    rewrite Ha; simpl. rewrite Hf; simpl. by rewrite Hl.
Qed.

Lemma clause_families_col_is_duplicate `{Helpers} matrix v fam :
  clause_families matrix v = Ok fam →
  v !! "col_is_duplicate" = Some (fam_col_is_duplicate fam).
Proof.
  unfold clause_families.
  intros (fp & _ & (fneg & _ & (pc & _ & (pr & _ & (cd & Hcd & (rd & _
    & (two & _ & [= <-])%bind_Ok)%bind_Ok)%bind_Ok)%bind_Ok)%bind_Ok)%bind_Ok)%bind_Ok.
  simpl. unfold Py.dict_get in Hcd.
  by destruct (v !! "col_is_duplicate"); simplify_eq/=.
Qed.

Lemma first_line_unigen (fam : families) (num_cols : nat) (line : string) :
  first_line fam num_cols true = Ok line ↔
  ∃ num_vars,
    Py.getitem (fam_col_is_duplicate fam) (Z.of_nat num_cols - 1) = Ok num_vars
    ∧ line = "p cnf " +:+ Py.str num_vars +:+ " "
               +:+ pretty (length (written_clauses fam)) +:+ nl.
Proof.
  unfold first_line.
  replace (length (written_clauses fam)) with
    (length (forbidden_clauses fam) + length (not_one_and_two_clauses fam)
     + (length (row_duplicate_clauses fam) + length (col_duplicate_clauses fam))
     + (length (col_pairs_equal_clauses fam) + length (row_pairs_equal_clauses fam))
     + (length (one_row_duplicate fam) + length (one_col_duplicate fam))
     + (length (at_least_one_row_dup fam) + length (at_least_one_col_dup fam)))%nat
    by (unfold written_clauses; rewrite !length_app; lia).
  rewrite bind_Ok. split.
  - intros (nv & Hnv & [= <-]). by exists nv.
  - intros (nv & Hnv & ->). by exists nv.
Qed.

Lemma line_ends_app (s1 s2 : string) :
  line_ends (s1 +:+ s2) = (line_ends s1 + line_ends s2)%nat.
Proof.
  induction s1 as [|c s1 IH]; [done|].
  rewrite app_String. simpl. rewrite IH. lia.
Qed.

Lemma line_ends_joined (lines : list string) :
  Forall (λ l, line_ends l = 1%nat) lines →
  line_ends (joined lines) = length lines.
Proof.
  induction 1 as [|l lines Hl _ IH]; [done|].
  simpl. rewrite line_ends_app, Hl, IH. done.
Qed.

(** What [get_cnf] leaves in the output file. *)
Lemma get_cnf_written `{Helpers} fs rf wf s t unigen lf v fs' :
  get_cnf fs rf wf s t unigen lf = Ok (v, fs') →
  ∃ matrix row0 fam line,
    read_matrix fs rf = Ok matrix ∧ head matrix = Some row0
    ∧ v = create_variable_matrices matrix s t
    ∧ clause_families matrix v = Ok fam
    ∧ first_line fam (length row0) unigen = Ok line
    ∧ fs' !! wf
      = Some ((if unigen then line else "") +:+ joined (written_clauses fam)).
Proof.
  intros (matrix & row0 & al & fam & line & Hm & Hr & _ & Hv & Hf & Hl & ->)%get_cnf_Ok.
  exists matrix, row0, fam, line. repeat split; try done.
  by rewrite lookup_insert_eq, write_formula_joined.
Qed.

(** ** The formula file *)

(** C2.  When [get_cnf] returns, the output file is the header line
    followed by the clause strings if [unigen] is true, and the clause
    strings alone if it is false: the header "p cnf <numVars>
    <numClauses>" is written exactly for unigen, with the entry of
    [col_is_duplicate] at the index of the last column as the number
    of variables and the number of clause strings as the number of
    clauses. *)
Theorem header_written_iff_unigen `{Helpers} fs rf wf s t unigen lf v fs' :
  get_cnf fs rf wf s t unigen lf = Ok (v, fs') →
  ∃ matrix row0 fam header,
    read_matrix fs rf = Ok matrix
    ∧ head matrix = Some row0
    ∧ clause_families matrix v = Ok fam
    ∧ fs' !! wf = Some (header +:+ joined (written_clauses fam))
    ∧ if unigen
      then ∃ col_is_duplicate num_vars,
             v !! "col_is_duplicate" = Some col_is_duplicate
             ∧ Py.getitem col_is_duplicate (Z.of_nat (length row0) - 1)
               = Ok num_vars
             ∧ header = "p cnf " +:+ Py.str num_vars +:+ " "
                        +:+ pretty (length (written_clauses fam)) +:+ nl
      else header = "".
Proof.
  intros (matrix & row0 & fam & line & Hm & Hr & _ & Hf & Hl & Hw)%get_cnf_written.
  exists matrix, row0, fam, (if unigen then line else "").
  split; [done|]. split; [done|]. split; [done|]. split; [done|].
  destruct unigen; [|done].
  apply first_line_unigen in Hl as (nv & Hnv & ->).
  exists (fam_col_is_duplicate fam), nv.
  split; [by apply clause_families_col_is_duplicate in Hf|done].
Qed.

Lemma header_written_iff_unigen_witness :
  (get_cnf (H := probe) disk "m.txt" "out.cnf" 2 2 true None
   = Ok (probe_vars, <["out.cnf" := formula_unigen]> disk))
  ∧ ∃ matrix row0 fam header,
      read_matrix disk "m.txt" = Ok matrix
      ∧ head matrix = Some row0
      ∧ clause_families (H := probe) matrix probe_vars = Ok fam
      ∧ (<["out.cnf" := formula_unigen]> disk) !! "out.cnf"
        = Some (header +:+ joined (written_clauses fam))
      ∧ ∃ col_is_duplicate num_vars,
          probe_vars !! "col_is_duplicate" = Some col_is_duplicate
          ∧ Py.getitem col_is_duplicate (Z.of_nat (length row0) - 1)
            = Ok num_vars
          ∧ header = "p cnf " +:+ Py.str num_vars +:+ " "
                     +:+ pretty (length (written_clauses fam)) +:+ nl.
Proof.
  split; [by_evaluation|].
  apply (header_written_iff_unigen (H := probe)
           disk "m.txt" "out.cnf" 2 2 true None).
  by_evaluation.
Defined.

(** C4.  With the header written, the clause count of the "p cnf" line
    is the number of clause strings written after it, which is the sum
    of the lengths of the ten clause lists; when every clause string is
    one line, it is the number of lines that follow the header. *)
Theorem header_clause_count `{Helpers} fs rf wf s t lf v fs' :
  get_cnf fs rf wf s t true lf = Ok (v, fs') →
  ∃ matrix fam num_vars,
    read_matrix fs rf = Ok matrix
    ∧ clause_families matrix v = Ok fam
    ∧ fs' !! wf
      = Some ("p cnf " +:+ num_vars +:+ " "
              +:+ pretty (length (written_clauses fam)) +:+ nl
              +:+ joined (written_clauses fam))
    ∧ length (written_clauses fam)
      = (length (forbidden_clauses fam) + length (not_one_and_two_clauses fam)
         + length (row_duplicate_clauses fam) + length (col_duplicate_clauses fam)
         + length (col_pairs_equal_clauses fam) + length (row_pairs_equal_clauses fam)
         + length (one_row_duplicate fam) + length (one_col_duplicate fam)
         + length (at_least_one_row_dup fam) + length (at_least_one_col_dup fam))%nat
    ∧ (Forall (λ clause, line_ends clause = 1%nat) (written_clauses fam) →
       line_ends (joined (written_clauses fam)) = length (written_clauses fam)).
Proof.
  intros (matrix & row0 & fam & line & Hm & _ & _ & Hf & Hl & Hw)%get_cnf_written.
  apply first_line_unigen in Hl as (nv & _ & ->).
  exists matrix, fam, (Py.str nv). repeat split; try done.
  - by rewrite Hw, !app_assoc_s.
  - unfold written_clauses. rewrite !length_app. lia.
  - apply line_ends_joined.
Qed.

Lemma header_clause_count_witness :
  (get_cnf (H := probe) disk "m.txt" "out.cnf" 2 2 true (Some "losses.txt")
   = Ok (probe_vars, <["out.cnf" := formula_unigen]> disk))
  ∧ ∃ matrix fam num_vars,
      read_matrix disk "m.txt" = Ok matrix
      ∧ clause_families (H := probe) matrix probe_vars = Ok fam
      ∧ (<["out.cnf" := formula_unigen]> disk) !! "out.cnf"
        = Some ("p cnf " +:+ num_vars +:+ " "
                +:+ pretty (length (written_clauses fam)) +:+ nl
                +:+ joined (written_clauses fam))
      ∧ length (written_clauses fam)
        = (length (forbidden_clauses fam) + length (not_one_and_two_clauses fam)
           + length (row_duplicate_clauses fam) + length (col_duplicate_clauses fam)
           + length (col_pairs_equal_clauses fam) + length (row_pairs_equal_clauses fam)
           + length (one_row_duplicate fam) + length (one_col_duplicate fam)
           + length (at_least_one_row_dup fam) + length (at_least_one_col_dup fam))%nat
      ∧ (Forall (λ clause, line_ends clause = 1%nat) (written_clauses fam) →
         line_ends (joined (written_clauses fam)) = length (written_clauses fam)).
Proof.
  split; [by_evaluation|].
  apply (header_clause_count (H := probe)
           disk "m.txt" "out.cnf" 2 2 (Some "losses.txt")).
  by_evaluation.
Defined.

(** C5, amended.  The clause lists are written in this order: the
    forbidden-state clauses, the mutual exclusion clauses, the
    cluster-consistency clauses (rows, then columns), the pairwise
    equality gadgets (column pairs, then row pairs), the at-most-one
    clauses (rows, then columns), the at-least-one clauses (rows, then
    columns). *)
Theorem clause_groups_order `{Helpers} fs rf wf s t unigen lf v fs' :
  get_cnf fs rf wf s t unigen lf = Ok (v, fs') →
  ∃ matrix fam header,
    read_matrix fs rf = Ok matrix
    ∧ clause_families matrix v = Ok fam
    ∧ fs' !! wf
      = Some (header
              +:+ joined (forbidden_clauses fam)
              +:+ joined (not_one_and_two_clauses fam)
              +:+ joined (row_duplicate_clauses fam)
              +:+ joined (col_duplicate_clauses fam)
              +:+ joined (col_pairs_equal_clauses fam)
              +:+ joined (row_pairs_equal_clauses fam)
              +:+ joined (one_row_duplicate fam)
              +:+ joined (one_col_duplicate fam)
              +:+ joined (at_least_one_row_dup fam)
              +:+ joined (at_least_one_col_dup fam)).
Proof.
  intros (matrix & row0 & fam & line & Hm & _ & _ & Hf & Hl & Hw)%get_cnf_written.
  exists matrix, fam, (if unigen then line else "").
  repeat split; try done.
  rewrite Hw. unfold written_clauses. by rewrite !joined_app.
Qed.

Lemma clause_groups_order_witness :
  (get_cnf (H := probe) disk "m.txt" "out.cnf" 2 2 false None
   = Ok (probe_vars, <["out.cnf" := formula_plain]> disk))
  ∧ ∃ matrix fam header,
      read_matrix disk "m.txt" = Ok matrix
      ∧ clause_families (H := probe) matrix probe_vars = Ok fam
      ∧ (<["out.cnf" := formula_plain]> disk) !! "out.cnf"
        = Some (header
                +:+ joined (forbidden_clauses fam)
                +:+ joined (not_one_and_two_clauses fam)
                +:+ joined (row_duplicate_clauses fam)
                +:+ joined (col_duplicate_clauses fam)
                +:+ joined (col_pairs_equal_clauses fam)
                +:+ joined (row_pairs_equal_clauses fam)
                +:+ joined (one_row_duplicate fam)
                +:+ joined (one_col_duplicate fam)
                +:+ joined (at_least_one_row_dup fam)
                +:+ joined (at_least_one_col_dup fam)).
Proof.
  split; [by_evaluation|].
  apply (clause_groups_order (H := probe)
           disk "m.txt" "out.cnf" 2 2 false None).
  by_evaluation.
Defined.

(** C5, as stated, fails: on the 2 by 2 example the file does not hold
    the groups in the order of the spec; it starts with the
    forbidden-state group, not with the mutual exclusion group. *)
Lemma spec_order_refuted :
  ∃ fam,
    probe_families = Ok fam
    ∧ clause_families (H := probe) [[0; 1]; [1; 0]] probe_vars = Ok fam
    ∧ get_cnf (H := probe) disk "m.txt" "out.cnf" 2 2 false None
      = Ok (probe_vars, <["out.cnf" := formula_plain]> disk)
    ∧ formula_plain ≠ joined (spec_order fam)
    ∧ formula_plain = joined (written_clauses fam).
Proof.
  unfold probe_families. eexists. split; [reflexivity|].
  split; [by_evaluation|]. split; [by_evaluation|].
  split; by_evaluation.
Qed.

(** C1, what the code does.  The set that [parse_allowed_losses] returns
    is not used: whatever the allowed-losses file holds, [get_cnf]
    returns the mapping and writes the formula that it returns and
    writes when no such file is given, that is, when every column may
    be lost. *)
Theorem get_cnf_ignores_allowed_losses `{Helpers} fs rf wf s t unigen lf r :
  get_cnf fs rf wf s t unigen lf = Ok r →
  get_cnf fs rf wf s t unigen None = Ok r.
Proof.
  destruct r as [v fs'].
  intros (matrix & row0 & al & fam & line & Hm & Hr & _ & Hv & Hf & Hl & ->)%get_cnf_Ok.
  apply get_cnf_Ok.
  exists matrix, row0, (list_to_set (seqZ 0 (Z.of_nat (length row0)))), fam, line.
  by repeat split.
Qed.

Lemma get_cnf_ignores_allowed_losses_witness :
  (get_cnf (H := probe) disk "m.txt" "out.cnf" 2 2 false (Some "losses.txt")
   = Ok (probe_vars, <["out.cnf" := formula_plain]> disk))
  ∧ get_cnf (H := probe) disk "m.txt" "out.cnf" 2 2 false None
    = Ok (probe_vars, <["out.cnf" := formula_plain]> disk).
Proof.
  split; [by_evaluation|].
  apply (get_cnf_ignores_allowed_losses (H := probe)
           disk "m.txt" "out.cnf" 2 2 false (Some "losses.txt")).
  by_evaluation.
Defined.

(** ** The input readers *)

Lemma no_line_end_String c s :
  no_line_end (String c s) = true → c ≠ Py.LF ∧ c ≠ Py.CR ∧ no_line_end s = true.
Proof.
  simpl. rewrite !andb_true_iff, !negb_true_iff, !bool_decide_eq_false. tauto.
Qed.

Lemma universal_newlines_line (h rest : string) :
  no_line_end h = true →
  Py.universal_newlines (h +:+ String Py.LF rest)
  = h +:+ String Py.LF (Py.universal_newlines rest).
Proof.
  induction h as [|c h IH].
  - intros _. rewrite !app_empty_l. simpl.
    by destruct (decide (Py.LF = Py.CR)).
  - intros (_ & Hcr & Hh)%no_line_end_String.
    rewrite !app_String. simpl.
    destruct (decide (c = Py.CR)); [done|]. by rewrite IH.
Qed.

Lemma split_keepends_line (h rest : string) :
  no_line_end h = true →
  Py.split_keepends (h +:+ String Py.LF rest)
  = (h +:+ nl) :: Py.split_keepends rest.
Proof.
  induction h as [|c h IH].
  - intros _. rewrite !app_empty_l. simpl.
    by destruct (decide (Py.LF = Py.LF)).
  - intros (Hlf & _ & Hh)%no_line_end_String.
    rewrite !app_String. simpl.
    destruct (decide (c = Py.LF)); [done|]. by rewrite IH.
Qed.

Lemma readlines_line (h rest : string) :
  no_line_end h = true →
  Py.readlines (h +:+ nl +:+ rest) = (h +:+ nl) :: Py.readlines rest.
Proof.
  intros Hh. unfold Py.readlines.
  change (nl +:+ rest) with (String Py.LF rest).
  by rewrite universal_newlines_line, split_keepends_line.
Qed.

(** C8.  Without an allowed-losses filename (none, or an empty one)
    [parse_allowed_losses] returns the set of the column indices
    0, ..., m-1. *)
Theorem parse_allowed_losses_default (fs : gmap string string) (m : Z) :
  ∃ allowed : gset Z,
    parse_allowed_losses fs None m = Ok allowed
    ∧ parse_allowed_losses fs (Some "") m = Ok allowed
    ∧ ∀ j : Z, j ∈ allowed ↔ 0 ≤ j < m.
Proof.
  exists (list_to_set (seqZ 0 m)).
  split; [done|]. split; [done|].
  intros j. rewrite elem_of_list_to_set, elem_of_seqZ. lia.
Qed.

Lemma parse_allowed_losses_other_file fs rf content lf n :
  lf ≠ Some rf →
  parse_allowed_losses (<[rf := content]> fs) lf n = parse_allowed_losses fs lf n.
Proof.
  intros Hne. unfold parse_allowed_losses.
  destruct (falsy lf) eqn:Hf; [done|].
  destruct lf as [f|]; [|done]. simpl.
  unfold Py.open_read. rewrite lookup_insert_ne; [done|]. congruence.
Qed.

Lemma get_cnf_of_matrix `{Helpers} fs1 fs2 rf wf s t unigen lf :
  read_matrix fs1 rf = read_matrix fs2 rf →
  (∀ n, parse_allowed_losses fs1 lf n = parse_allowed_losses fs2 lf n) →
  formula_of wf <$> get_cnf fs1 rf wf s t unigen lf
  = formula_of wf <$> get_cnf fs2 rf wf s t unigen lf.
Proof.
  intros Hm Hl. unfold get_cnf. rewrite Hm.
  destruct (read_matrix fs2 rf) as [matrix|]; [simpl|done].
  destruct (Py.first matrix) as [row0|]; [simpl|done].
  rewrite Hl.
  destruct (parse_allowed_losses fs2 lf _); [simpl|done].
  destruct (clause_families _ _) as [fam|]; [simpl|done].
  destruct (first_line _ _ _) as [line|]; [simpl|done].
  unfold formula_of. simpl. by rewrite !lookup_insert_eq.
Qed.

(** C10.  [read_matrix] does not look at the two header lines: it
    returns the lines after them, one row per line, and a run of
    [get_cnf] on a file gives the same mapping and formula whatever the
    two header lines say. *)
Theorem read_matrix_ignores_header `{Helpers}
    fs rf wf s t unigen lf (h1 h2 h1' h2' body : string) :
  no_line_end h1 = true → no_line_end h2 = true →
  no_line_end h1' = true → no_line_end h2' = true →
  lf ≠ Some rf →
  read_matrix (<[rf := h1 +:+ nl +:+ h2 +:+ nl +:+ body]> fs) rf
  = mapM (λ line, mapM Py.int (Py.split line)) (Py.readlines body)
  ∧ formula_of wf
      <$> get_cnf (<[rf := h1 +:+ nl +:+ h2 +:+ nl +:+ body]> fs)
            rf wf s t unigen lf
    = formula_of wf
      <$> get_cnf (<[rf := h1' +:+ nl +:+ h2' +:+ nl +:+ body]> fs)
            rf wf s t unigen lf.
Proof.
  intros H1 H2 H1' H2' Hlf.
  assert (Hread : ∀ a b, no_line_end a = true → no_line_end b = true →
    read_matrix (<[rf := a +:+ nl +:+ b +:+ nl +:+ body]> fs) rf
    = mapM (λ line, mapM Py.int (Py.split line)) (Py.readlines body)).
  { intros a b Ha Hb. unfold read_matrix, Py.open_read.
    rewrite lookup_insert_eq. simpl. unfold read_matrix_text.
    by rewrite !readlines_line. }
  split; [by apply Hread|].
  apply get_cnf_of_matrix.
  - by rewrite !Hread.
  - intros n. by rewrite !parse_allowed_losses_other_file.
Qed.

Lemma read_matrix_ignores_header_witness :
  (no_line_end "5" = true ∧ no_line_end "7" = true
   ∧ no_line_end "2" = true ∧ no_line_end "2" = true
   ∧ None ≠ Some "m.txt")
  ∧ read_matrix
      (<["m.txt" := "5" +:+ nl +:+ "7" +:+ nl +:+ "0 1" +:+ nl +:+ "1 0" +:+ nl]> ∅)
      "m.txt"
    = mapM (λ line, mapM Py.int (Py.split line))
        (Py.readlines ("0 1" +:+ nl +:+ "1 0" +:+ nl))
  ∧ formula_of "out.cnf"
      <$> get_cnf (H := probe)
            (<["m.txt" := "5" +:+ nl +:+ "7" +:+ nl +:+ "0 1" +:+ nl +:+ "1 0" +:+ nl]> ∅)
            "m.txt" "out.cnf" 2 2 true None
    = formula_of "out.cnf"
      <$> get_cnf (H := probe)
            (<["m.txt" := "2" +:+ nl +:+ "2" +:+ nl +:+ "0 1" +:+ nl +:+ "1 0" +:+ nl]> ∅)
            "m.txt" "out.cnf" 2 2 true None.
Proof.
  split; [by repeat split|].
  by apply (read_matrix_ignores_header (H := probe)
              ∅ "m.txt" "out.cnf" 2 2 true None "5" "7" "2" "2"
              ("0 1" +:+ nl +:+ "1 0" +:+ nl)).
Defined.

Lemma int_Raise (token : string) (e : exn) :
  Py.int token = Raise e → e = ValueError.
Proof.
  unfold Py.int. case_bool_decide; [|by intros [=]].
  by destruct (match Py.int_strip token with "" => _ | String _ _ => _ end);
    intros [=].
Qed.



(** ** More on the text functions *)

Lemma all_chars_app (P : ascii → bool) (s1 s2 : string) :
  all_chars P (s1 +:+ s2) = all_chars P s1 && all_chars P s2.
Proof.
  induction s1 as [|c s1 IH]; [done|].
  rewrite app_String. simpl. by rewrite IH, andb_assoc.
Qed.

Lemma all_chars_impl (P Q : ascii → bool) (s : string) :
  (∀ c, P c = true → Q c = true) →
  all_chars P s = true → all_chars Q s = true.
Proof.
  intros HPQ. induction s as [|c s IH]; [done|]. simpl.
  rewrite !andb_true_iff. intros [??]. auto.
Qed.

Lemma no_line_end_all_chars (s : string) :
  no_line_end s
  = all_chars (λ c, negb (bool_decide (c = Py.LF))
                    && negb (bool_decide (c = Py.CR))) s.
Proof. induction s as [|c s IH]; [done|]. simpl. by rewrite IH. Qed.

Lemma rev_app_app (s1 s2 t : string) :
  String.rev_app (s1 +:+ s2) t = String.rev_app s2 (String.rev_app s1 t).
Proof.
  revert t. induction s1 as [|c s1 IH]; intros t; [done|].
  rewrite app_String. simpl. by rewrite IH.
Qed.

Lemma rev_app_rev (s t : string) : String.rev_app s t = String.rev s +:+ t.
Proof.
  unfold String.rev. revert t. induction s as [|c s IH]; intros t; [done|].
  simpl. rewrite (IH (String c "")), IH, app_assoc_s. done.
Qed.

Lemma rev_app_s (s1 s2 : string) :
  String.rev (s1 +:+ s2) = String.rev s2 +:+ String.rev s1.
Proof. unfold String.rev at 1. by rewrite rev_app_app, rev_app_rev. Qed.

Lemma rev_involutive (s : string) : String.rev (String.rev s) = s.
Proof.
  induction s as [|c s IH]; [done|].
  change (String c s) with (String c "" +:+ s) at 1.
  rewrite rev_app_s, rev_app_s, IH. done.
Qed.

Lemma all_chars_rev (P : ascii → bool) (s : string) :
  all_chars P (String.rev s) = all_chars P s.
Proof.
  induction s as [|c s IH]; [done|].
  change (String c s) with (String c "" +:+ s) at 1.
  rewrite rev_app_s, all_chars_app, IH. simpl.
  by rewrite andb_true_r, andb_comm.
Qed.

Lemma lstrip_blank (ws s : string) :
  blank ws = true → Py.lstrip (ws +:+ s) = Py.lstrip s.
Proof.
  induction ws as [|c ws IH]; [done|]. unfold blank in *.
  intros [Hc Hws]%andb_true_iff. rewrite app_String.
  change (Py.lstrip (String c (ws +:+ s)))
    with (if Py.isspace c then Py.lstrip (ws +:+ s) else String c (ws +:+ s)).
  rewrite Hc. by apply IH.
Qed.

Lemma lstrip_no_blank (s : string) : no_blank s = true → Py.lstrip s = s.
Proof.
  destruct s as [|c s]; [done|]. unfold no_blank. simpl.
  intros [Hc _]%andb_true_iff. by apply negb_true_iff in Hc as ->.
Qed.

Lemma all_chars_lstrip (P : ascii → bool) (s : string) :
  all_chars P s = true → all_chars P (Py.lstrip s) = true.
Proof.
  induction s as [|c s IH]; [done|]. simpl.
  intros [Hc Hs]%andb_true_iff.
  destruct (Py.isspace c); [by apply IH|]. simpl. by rewrite Hc, Hs.
Qed.

Lemma all_chars_strip (P : ascii → bool) (s : string) :
  all_chars P s = true → all_chars P (Py.strip s) = true.
Proof.
  intros Hs. unfold Py.strip.
  rewrite all_chars_rev. apply all_chars_lstrip.
  rewrite all_chars_rev. by apply all_chars_lstrip.
Qed.

(** Blanks before and after a text without blanks are stripped. *)
Lemma strip_padded (ws1 w ws2 : string) :
  blank ws1 = true → no_blank w = true → blank ws2 = true →
  Py.strip (ws1 +:+ w +:+ ws2) = w.
Proof.
  intros H1 Hw H2. unfold Py.strip.
  rewrite lstrip_blank by done.
  destruct w as [|c w].
  - rewrite app_empty_l.
    replace (Py.lstrip ws2) with ""; [done|].
    rewrite <- (app_empty_r ws2). by rewrite lstrip_blank.
  - assert (Hc : Py.isspace c = false).
    { unfold no_blank in Hw. simpl in Hw.
      apply andb_true_iff in Hw as [Hc _]. by apply negb_true_iff in Hc. }
    rewrite app_String. simpl. rewrite Hc.
    rewrite <- app_String, rev_app_s.
    rewrite lstrip_blank by (unfold blank; by rewrite all_chars_rev).
    rewrite lstrip_no_blank by (unfold no_blank; by rewrite all_chars_rev).
    apply rev_involutive.
Qed.

Lemma strip_no_blank (w : string) : no_blank w = true → Py.strip w = w.
Proof.
  intros Hw. pose proof (strip_padded "" w "" eq_refl Hw eq_refl) as Hs.
  by rewrite app_empty_l, app_empty_r in Hs.
Qed.

(** ** [int] reads back what [str] prints *)

Lemma int_lstrip_blank (ws s : string) :
  numeral_blank ws = true → Py.int_lstrip (ws +:+ s) = Py.int_lstrip s.
Proof.
  induction ws as [|c ws IH]; [done|]. unfold numeral_blank in *.
  intros [Hc Hws]%andb_true_iff. rewrite app_String.
  change (Py.int_lstrip (String c (ws +:+ s)))
    with (if Py.int_space c then Py.int_lstrip (ws +:+ s)
          else String c (ws +:+ s)).
  rewrite Hc. by apply IH.
Qed.

Lemma int_lstrip_no_blank (s : string) :
  no_numeral_blank s = true → Py.int_lstrip s = s.
Proof.
  destruct s as [|c s]; [done|]. unfold no_numeral_blank. simpl.
  intros [Hc _]%andb_true_iff. by apply negb_true_iff in Hc as ->.
Qed.

Lemma all_chars_int_lstrip (P : ascii → bool) (s : string) :
  all_chars P s = true → all_chars P (Py.int_lstrip s) = true.
Proof.
  induction s as [|c s IH]; [done|]. simpl.
  intros [Hc Hs]%andb_true_iff.
  destruct (Py.int_space c); [by apply IH|]. simpl. by rewrite Hc, Hs.
Qed.

Lemma all_chars_int_strip (P : ascii → bool) (s : string) :
  all_chars P s = true → all_chars P (Py.int_strip s) = true.
Proof.
  intros Hs. unfold Py.int_strip.
  rewrite all_chars_rev. apply all_chars_int_lstrip.
  rewrite all_chars_rev. by apply all_chars_int_lstrip.
Qed.

(** The blanks of [int] before and after a text without them are
    dropped. *)
Lemma int_strip_padded (ws1 w ws2 : string) :
  numeral_blank ws1 = true → no_numeral_blank w = true →
  numeral_blank ws2 = true →
  Py.int_strip (ws1 +:+ w +:+ ws2) = w.
Proof.
  intros H1 Hw H2. unfold Py.int_strip.
  rewrite int_lstrip_blank by done.
  destruct w as [|c w].
  - rewrite app_empty_l.
    replace (Py.int_lstrip ws2) with ""; [done|].
    rewrite <- (app_empty_r ws2). by rewrite int_lstrip_blank.
  - assert (Hc : Py.int_space c = false).
    { unfold no_numeral_blank in Hw. simpl in Hw.
      apply andb_true_iff in Hw as [Hc _]. by apply negb_true_iff in Hc. }
    rewrite app_String. simpl. rewrite Hc.
    rewrite <- app_String, rev_app_s.
    rewrite int_lstrip_blank by (unfold numeral_blank; by rewrite all_chars_rev).
    rewrite int_lstrip_no_blank
      by (unfold no_numeral_blank; by rewrite all_chars_rev).
    apply rev_involutive.
Qed.

Lemma int_strip_no_blank (w : string) :
  no_numeral_blank w = true → Py.int_strip w = w.
Proof.
  intros Hw. pose proof (int_strip_padded "" w "" eq_refl Hw eq_refl) as Hs.
  by rewrite app_empty_l, app_empty_r in Hs.
Qed.

Lemma int_unfold (s : string) :
  Py.int s
  = if bool_decide (Py.digit_count (Py.int_strip s) ≤ Py.max_str_digits)%nat
    then from_option Ok (Raise ValueError)
           match Py.int_strip s with
           | "" => None
           | String c s' =>
               if decide (c = "-"%char) then Z.opp <$> Py.digits 0 false s'
               else if decide (c = "+"%char) then Py.digits 0 false s'
               else Py.digits 0 false (String c s')
           end
    else Raise ValueError.
Proof.
  unfold Py.int. case_bool_decide; [|done].
  destruct (Py.int_strip s) as [|c s']; [done|].
  destruct c as [[] [] [] [] [] [] [] []]; reflexivity.
Qed.

Lemma digits_String_digit c d acc b s :
  Py.digit c = Some d →
  Py.digits acc b (String c s) = Py.digits (10 * acc + d) true s.
Proof. intros Hd. simpl. by rewrite Hd. Qed.

Lemma ten_cases (d : N) :
  (d < 10)%N →
  (d = 0 ∨ d = 1 ∨ d = 2 ∨ d = 3 ∨ d = 4 ∨ d = 5 ∨ d = 6 ∨ d = 7 ∨ d = 8 ∨ d = 9)%N.
Proof. lia. Qed.

Lemma digit_pretty_N_char (d : N) :
  (d < 10)%N → Py.digit (pretty_N_char d) = Some (Z.of_N d).
Proof. intros Hd%ten_cases. by repeat (destruct Hd as [->|Hd]; [done|]); subst. Qed.

Lemma decimal_pretty_N_char (d : N) : decimal_char (pretty_N_char d) = true.
Proof.
  destruct (decide (d < 10)%N) as [Hd%ten_cases|Hd].
  - by repeat (destruct Hd as [->|Hd]; [done|]); subst.
  - unfold pretty_N_char. by repeat case_match.
Qed.

Lemma digits_pretty_N_go (x : N) :
  (0 < x)%N →
  ∃ p, ∀ acc b s,
    Py.digits acc b (pretty_N_go x s)
    = Py.digits (acc * p + Z.of_N x) true s.
Proof.
  induction (N.lt_wf_0 x) as [x _ IH]. intros Hx.
  assert (Hmod : (x `mod` 10 < 10)%N) by (apply N.mod_lt; lia).
  pose proof (N.div_mod x 10 ltac:(lia)) as Hdm.
  destruct (decide (x `div` 10 = 0)%N) as [Hdiv|Hdiv].
  - exists 10. intros acc b s.
    rewrite pretty_N_go_step, Hdiv, pretty_N_go_0 by done.
    rewrite (digits_String_digit _ _ _ _ _ (digit_pretty_N_char _ Hmod)).
    f_equal. lia.
  - destruct (IH (x `div` 10)%N) as [p Hp];
      [apply N.div_lt; lia | lia |].
    exists (10 * p). intros acc b s.
    rewrite pretty_N_go_step, Hp by done.
    rewrite (digits_String_digit _ _ _ _ _ (digit_pretty_N_char _ Hmod)).
    f_equal. lia.
Qed.

Lemma decimal_pretty_N_go (x : N) (s : string) :
  all_chars decimal_char s = true →
  all_chars decimal_char (pretty_N_go x s) = true.
Proof.
  revert s. induction (N.lt_wf_0 x) as [x _ IH]. intros s Hs.
  destruct (decide (0 < x)%N) as [Hx|Hx].
  - rewrite pretty_N_go_step by done. apply IH; [apply N.div_lt; lia|].
    simpl. by rewrite decimal_pretty_N_char, Hs.
  - replace x with 0%N by lia. by rewrite pretty_N_go_0.
Qed.

Lemma pretty_Zpos (p : positive) : pretty (Z.pos p) = pretty_N_go (N.pos p) "".
Proof. done. Qed.

Lemma pretty_Zneg (p : positive) :
  pretty (Z.neg p) = String "-" (pretty_N_go (N.pos p) "").
Proof. done. Qed.

Lemma decimal_pretty (z : Z) : all_chars decimal_char (pretty z) = true.
Proof.
  destruct z as [|p|p]; [done|..].
  - rewrite pretty_Zpos. by apply decimal_pretty_N_go.
  - rewrite pretty_Zneg. simpl. by apply decimal_pretty_N_go.
Qed.

Lemma digits_pretty_pos (p : positive) :
  Py.digits 0 false (pretty_N_go (N.pos p) "") = Some (Z.pos p).
Proof.
  destruct (digits_pretty_N_go (N.pos p)) as [q Hq]; [lia|].
  rewrite Hq. done.
Qed.

Lemma digits_sign (c : ascii) (s : string) (z : Z) :
  Py.digits 0 false (String c s) = Some z → c ≠ "-"%char ∧ c ≠ "+"%char.
Proof. split; intros ->; discriminate. Qed.

Lemma pretty_no_blank (z : Z) : no_blank (pretty z) = true.
Proof.
  eapply all_chars_impl; [|apply decimal_pretty].
  intros [[] [] [] [] [] [] [] []]; by vm_compute.
Qed.

Lemma pretty_no_int_blank (z : Z) : no_numeral_blank (pretty z) = true.
Proof.
  eapply all_chars_impl; [|apply decimal_pretty].
  intros [[] [] [] [] [] [] [] []]; by vm_compute.
Qed.

Lemma is_digit_pretty_N_go (x : N) (s : string) :
  all_chars is_digit s = true → all_chars is_digit (pretty_N_go x s) = true.
Proof.
  revert s. induction (N.lt_wf_0 x) as [x _ IH]. intros s Hs.
  destruct (decide (0 < x)%N) as [Hx|Hx].
  - rewrite pretty_N_go_step by done. apply IH; [apply N.div_lt; lia|].
    simpl. rewrite Hs, andb_true_r. unfold is_digit.
    apply bool_decide_eq_true.
    rewrite digit_pretty_N_char by (apply N.mod_lt; lia). eauto.
  - replace x with 0%N by lia. by rewrite pretty_N_go_0.
Qed.

Lemma digit_count_digits (s : string) :
  all_chars is_digit s = true → Py.digit_count s = String.length s.
Proof.
  induction s as [|c s IH]; [done|]. simpl.
  intros [Hc%bool_decide_eq_true Hs]%andb_true_iff.
  destruct Hc as [d ->]. by rewrite IH.
Qed.

(** The digits that [int] counts in a printed integer are its decimal
    digits. *)
Lemma digit_count_pretty (z : Z) : Py.digit_count (pretty z) = digits_of z.
Proof.
  unfold digits_of. destruct z as [|p|p]; [done|..].
  - change (Z.abs (Z.pos p)) with (Z.pos p).
    apply digit_count_digits. rewrite pretty_Zpos.
    by apply is_digit_pretty_N_go.
  - change (Z.abs (Z.neg p)) with (Z.pos p). rewrite pretty_Zneg, pretty_Zpos.
    transitivity (Py.digit_count (pretty_N_go (N.pos p) "")); [done|].
    apply digit_count_digits. by apply is_digit_pretty_N_go.
Qed.

(** The separators 28 to 31 are blanks for [split] and [strip], not for
    [int]; the no-break space is a blank for all three; single
    underscores between digits are skipped. *)
Lemma int_blanks_examples :
  Py.isspace "028" = true
  ∧ Py.int (String "028" "4") = Raise ValueError
  ∧ Py.int (String "160" "4") = Ok 4
  ∧ Py.split (String "0" (String "160" "1")) = ["0"; "1"]
  ∧ Py.int " -12_3 " = Ok (-123)
  ∧ Py.int "1__2" = Raise ValueError.
Proof. repeat split; by_evaluation. Qed.

(** A decimal numeral within the limit on digits is read back as the
    integer it was printed from. *)
Lemma int_pretty (z : Z) :
  (digits_of z ≤ Py.max_str_digits)%nat → Py.int (pretty z) = Ok z.
Proof.
  intros Hz.
  rewrite int_unfold, int_strip_no_blank by apply pretty_no_int_blank.
  rewrite digit_count_pretty, bool_decide_eq_true_2 by done.
  destruct z as [|p|p]; [done|..].
  - rewrite pretty_Zpos. pose proof (digits_pretty_pos p) as Hd.
    destruct (pretty_N_go (N.pos p) "") as [|c s]; [done|].
    destruct (digits_sign _ _ _ Hd) as [Hm Hp].
    rewrite !decide_False by done. by rewrite Hd.
  - rewrite pretty_Zneg, decide_True by done.
    by rewrite digits_pretty_pos.
Qed.

Lemma pretty_not_empty (z : Z) : pretty z ≠ "".
Proof.
  destruct z as [|p|p]; [done| |done].
  rewrite pretty_Zpos. intros Hz. pose proof (digits_pretty_pos p) as Hd.
  by rewrite Hz in Hd.
Qed.

(** ** Splitting rendered lines *)

Lemma split_blank (a : ascii) (s : string) :
  Py.isspace a = true → Py.split (String a s) = Py.split s.
Proof. intros Ha. simpl. by rewrite Ha. Qed.

Lemma split_last_char (a : ascii) :
  Py.isspace a = false → Py.split (String a "") = [String a ""].
Proof. intros Ha. simpl. by rewrite Ha. Qed.

Lemma split_word_end (a c : ascii) (s : string) :
  Py.isspace a = false → Py.isspace c = true →
  Py.split (String a (String c s)) = String a "" :: Py.split s.
Proof. intros Ha Hc. simpl. by rewrite Ha, Hc. Qed.

Lemma split_word_more (a a' : ascii) (s : string) :
  Py.isspace a = false → Py.isspace a' = false →
  Py.split (String a (String a' s))
  = match Py.split (String a' s) with
    | [] => [String a ""]
    | w :: ws => String a w :: ws
    end.
Proof.
  intros Ha Ha'. remember (String a' s) as s1 eqn:Hs1.
  simpl. rewrite Ha. destruct s1 as [|c s2]; [done|].
  injection Hs1 as -> ->. by rewrite Ha'.
Qed.

(** A word followed by a blank is the first word of the text. *)
Lemma split_word (w : string) (c : ascii) (rest : string) :
  w ≠ "" → no_blank w = true → Py.isspace c = true →
  Py.split (w +:+ String c rest) = w :: Py.split rest.
Proof.
  intros Hne Hw Hc. induction w as [|a w IH]; [done|].
  unfold no_blank in Hw. simpl in Hw.
  apply andb_true_iff in Hw as [Ha%negb_true_iff Hw].
  rewrite app_String. destruct w as [|a' w].
  - rewrite app_empty_l. by apply split_word_end.
  - assert (Ha' : Py.isspace a' = false).
    { simpl in Hw. apply andb_true_iff in Hw as [Ha' _].
      by apply negb_true_iff in Ha'. }
    rewrite app_String, split_word_more by done.
    rewrite <- app_String, IH by done. done.
Qed.

Lemma split_joined_words (ws : list string) :
  Forall (λ w, w ≠ "" ∧ no_blank w = true) ws →
  Py.split (join " " ws +:+ nl) = ws.
Proof.
  induction 1 as [|w ws [Hne Hw] Hws IH]; [done|].
  destruct ws as [|w' ws].
  - simpl. unfold nl. by rewrite split_word.
  - change (join " " (w :: w' :: ws)) with (w +:+ " " +:+ join " " (w' :: ws)).
    rewrite !app_assoc_s.
    change (" " +:+ ?x) with (String " " x).
    rewrite split_word by done. by rewrite IH.
Qed.

Lemma mapM_int_pretty (zs : list Z) :
  Forall (λ z, (digits_of z ≤ Py.max_str_digits)%nat) zs →
  mapM Py.int (pretty <$> zs) = Ok zs.
Proof.
  induction 1 as [|z zs Hz _ IH]; [done|].
  rewrite fmap_cons. simpl. rewrite int_pretty by done. simpl.
  by rewrite IH.
Qed.

Lemma all_chars_join (P : ascii → bool) (sep : string) (l : list string) :
  all_chars P sep = true → Forall (λ x, all_chars P x = true) l →
  all_chars P (join sep l) = true.
Proof.
  intros Hsep. induction 1 as [|x l Hx Hl IH]; [done|].
  destruct l as [|y l]; [done|].
  change (join sep (x :: y :: l)) with (x +:+ sep +:+ join sep (y :: l)).
  by rewrite !all_chars_app, Hx, Hsep, IH.
Qed.

Lemma all_chars_pretty (P : ascii → bool) (z : Z) :
  (∀ c, decimal_char c = true → P c = true) → all_chars P (pretty z) = true.
Proof. intros HP. eapply all_chars_impl; [exact HP|apply decimal_pretty]. Qed.

Lemma render_row_no_line_end (row : list Z) : no_line_end (render_row row) = true.
Proof.
  rewrite no_line_end_all_chars. unfold render_row.
  apply all_chars_join; [done|].
  apply Forall_fmap, Forall_forall. intros z _. simpl.
  apply all_chars_pretty.
  intros [[] [] [] [] [] [] [] []]; by vm_compute.
Qed.

Lemma split_render_row (row : list Z) :
  Py.split (render_row row +:+ nl) = pretty <$> row.
Proof.
  apply split_joined_words, Forall_fmap, Forall_forall. intros z _. simpl.
  split; [apply pretty_not_empty|apply pretty_no_blank].
Qed.

Lemma readlines_joined_lines (bodies : list string) :
  Forall (λ b, no_line_end b = true) bodies →
  Py.readlines (joined ((λ b, b +:+ nl) <$> bodies)) = (λ b, b +:+ nl) <$> bodies.
Proof.
  induction 1 as [|b bodies Hb _ IH]; [done|].
  rewrite fmap_cons.
  change (joined (?x :: ?l)) with (x +:+ joined l).
  by rewrite app_assoc_s, readlines_line, IH.
Qed.

Lemma readlines_render_matrix (rows : list (list Z)) :
  Py.readlines (render_matrix rows) = (λ row, render_row row +:+ nl) <$> rows.
Proof.
  unfold render_matrix.
  rewrite (list_fmap_compose render_row (λ b, b +:+ nl)).
  rewrite readlines_joined_lines; [done|].
  apply Forall_fmap, Forall_forall. intros row _. apply render_row_no_line_end.
Qed.

Lemma parse_rendered_rows (rows : list (list Z)) :
  Forall (Forall (λ z, (digits_of z ≤ Py.max_str_digits)%nat)) rows →
  mapM (λ line, mapM Py.int (Py.split line))
    ((λ row, render_row row +:+ nl) <$> rows) = Ok rows.
Proof.
  induction 1 as [|row rows Hrow _ IH]; [done|].
  rewrite fmap_cons. simpl.
  rewrite split_render_row, mapM_int_pretty by done. simpl.
  by rewrite IH.
Qed.

(** X1.  A matrix written one row per line, in decimal, behind any two
    header lines is read back as it was written, when no cell has more
    digits than [int] accepts (4300): ragged and empty rows and cells
    of either sign included. *)
Theorem read_matrix_round_trip fs filename (h1 h2 : string) (rows : list (list Z)) :
  no_line_end h1 = true → no_line_end h2 = true →
  Forall (Forall (λ z, (digits_of z ≤ Py.max_str_digits)%nat)) rows →
  fs !! filename = Some (h1 +:+ nl +:+ h2 +:+ nl +:+ render_matrix rows) →
  read_matrix fs filename = Ok rows.
Proof.
  intros H1 H2 Hrows Hfile. unfold read_matrix, Py.open_read.
  rewrite Hfile. simpl. unfold read_matrix_text.
  rewrite !readlines_line by done.
  change (drop 2 (?a :: ?b :: ?l)) with l.
  rewrite readlines_render_matrix. by apply parse_rendered_rows.
Qed.

(** ** The allowed-losses line *)

Lemma split_on_field (sep : ascii) (w rest : string) :
  no_char sep w = true →
  Py.split_on sep (w +:+ String sep rest) = w :: Py.split_on sep rest.
Proof.
  induction w as [|a w IH].
  - intros _. rewrite app_empty_l. simpl. by rewrite decide_True.
  - intros Hw. unfold no_char in Hw. simpl in Hw.
    apply andb_true_iff in Hw as [Ha%negb_true_iff%bool_decide_eq_false Hw].
    rewrite app_String. simpl. rewrite decide_False by done.
    by rewrite IH.
Qed.

Lemma split_on_whole (sep : ascii) (w : string) :
  no_char sep w = true → Py.split_on sep w = [w].
Proof.
  induction w as [|a w IH]; [done|]. unfold no_char. simpl.
  intros [Ha%negb_true_iff%bool_decide_eq_false Hw]%andb_true_iff.
  rewrite decide_False by done. by rewrite IH.
Qed.

(** Blanks around a numeral do not matter to [int]. *)
Lemma int_padded (ws1 w ws2 : string) :
  numeral_blank ws1 = true → no_numeral_blank w = true →
  numeral_blank ws2 = true →
  Py.int (ws1 +:+ w +:+ ws2) = Py.int w.
Proof.
  intros H1 Hw H2.
  by rewrite !int_unfold, int_strip_padded, int_strip_no_blank.
Qed.

Lemma pretty_no_comma (z : Z) : no_char ","%char (pretty z) = true.
Proof.
  apply all_chars_pretty. intros [[] [] [] [] [] [] [] []]; by vm_compute.
Qed.

Lemma join_cons (sep x : string) (l : list string) :
  l ≠ [] → join sep (x :: l) = x +:+ sep +:+ join sep l.
Proof. by destruct l. Qed.

Lemma parse_rendered_losses (columns : list Z) :
  columns ≠ [] →
  Forall (λ z, (digits_of z ≤ Py.max_str_digits)%nat) columns →
  mapM Py.int (Py.split_on ","%char (join "," (pretty <$> columns) +:+ nl))
  = Ok columns.
Proof.
  intros Hne Hall. induction columns as [|z zs IH]; [done|].
  apply Forall_cons in Hall as [Hz Hzs'].
  destruct (decide (zs = [])) as [->|Hzs].
  - change (join "," (pretty <$> [z])) with (pretty z).
    rewrite split_on_whole.
    2:{ unfold no_char. rewrite all_chars_app.
        fold (no_char "," (pretty z)). by rewrite pretty_no_comma. }
    pose proof (int_padded "" (pretty z) nl eq_refl
                  (pretty_no_int_blank z) eq_refl) as Hint.
    rewrite app_empty_l in Hint.
    change (mapM Py.int [?x]) with (y ← Py.int x; mret [y]).
    by rewrite Hint, int_pretty.
  - specialize (IH Hzs Hzs'). rewrite fmap_cons, join_cons by by destruct zs.
    rewrite !app_assoc_s.
    change ("," +:+ ?x) with (String "," x).
    rewrite split_on_field by apply pretty_no_comma.
    change (mapM Py.int (?x :: ?l))
      with (y ← Py.int x; k ← mapM Py.int l; mret (y :: k)).
    by rewrite int_pretty, IH.
Qed.

Lemma render_losses_no_line_end (columns : list Z) :
  no_line_end (join "," (pretty <$> columns)) = true.
Proof.
  rewrite no_line_end_all_chars.
  apply all_chars_join; [done|].
  apply Forall_fmap, Forall_forall. intros z _. simpl.
  apply all_chars_pretty.
  intros [[] [] [] [] [] [] [] []]; by vm_compute.
Qed.

Lemma parse_allowed_losses_file fs f content n :
  f ≠ "" → fs !! f = Some content →
  parse_allowed_losses fs (Some f) n
  = match Py.readlines content with
    | [] => Ok ∅
    | line :: _ =>
        ints ← mapM Py.int (Py.split_on ","%char line); Ok (list_to_set ints)
    end.
Proof.
  intros Hf Hfile. unfold parse_allowed_losses, falsy.
  rewrite bool_decide_eq_false_2 by done. simpl.
  unfold Py.open_read. rewrite Hfile. simpl.
  destruct (Py.readlines content) as [|line lines]; [done|].
  rewrite bool_decide_eq_true_2 by (simpl; lia). done.
Qed.

(** X4.  A non-empty list of column indices written in decimal on one
    line, separated by commas, none with more digits than [int]
    accepts (4300), is read back as the set of these indices, whatever
    follows that line and whatever the number of columns is. *)
Theorem parse_allowed_losses_round_trip
    fs f (columns : list Z) (rest : string) (num_mutations : Z) :
  f ≠ "" → columns ≠ [] →
  Forall (λ z, (digits_of z ≤ Py.max_str_digits)%nat) columns →
  fs !! f = Some (render_losses columns +:+ rest) →
  parse_allowed_losses fs (Some f) num_mutations = Ok (list_to_set columns).
Proof.
  intros Hf Hne Hall Hfile.
  rewrite (parse_allowed_losses_file _ _ _ _ Hf Hfile).
  unfold render_losses. rewrite app_assoc_s.
  rewrite readlines_line by apply render_losses_no_line_end.
  by rewrite parse_rendered_losses.
Qed.

(** X5.  Only the first line of the allowed-losses file is read: two
    files with the same first line give the same result. *)
Theorem parse_allowed_losses_first_line
    fs fs' f (line rest rest' : string) (n n' : Z) :
  f ≠ "" → no_line_end line = true →
  fs !! f = Some (line +:+ nl +:+ rest) →
  fs' !! f = Some (line +:+ nl +:+ rest') →
  parse_allowed_losses fs (Some f) n = parse_allowed_losses fs' (Some f) n'.
Proof.
  intros Hf Hline Hfile Hfile'.
  rewrite (parse_allowed_losses_file _ _ _ _ Hf Hfile).
  rewrite (parse_allowed_losses_file _ _ _ _ Hf Hfile').
  by rewrite !readlines_line.
Qed.

Lemma int_blank (s : string) : blank s = true → Py.int s = Raise ValueError.
Proof.
  intros Hs. rewrite int_unfold. case_bool_decide; [|done].
  apply all_chars_int_strip in Hs.
  destruct (Py.int_strip s) as [|c s']; [done|].
  simpl in Hs. apply andb_true_iff in Hs as [Hc _].
  destruct c as [[] [] [] [] [] [] [] []];
    vm_compute in Hc; try discriminate; reflexivity.
Qed.

Lemma mapM_int_Raise (l : list string) (field : string) :
  field ∈ l → Py.int field = Raise ValueError →
  mapM Py.int l = Raise ValueError.
Proof.
  intros Hin Hfield.
  destruct (mapM Py.int l) as [ints|e] eqn:Hm.
  - assert (Hok : is_Ok (mapM Py.int l)) by by exists ints.
    apply mapM_is_Ok in Hok. rewrite Forall_forall in Hok.
    destruct (Hok field Hin) as [z Hz]. congruence.
  - apply mapM_Raise in Hm as (x & _ & Hx). f_equal.
    by apply int_Raise in Hx.
Qed.

(** X6.  A first line of the allowed-losses file with a blank entry
    (an empty line, a comma at its end, two commas in a row) is a
    ValueError. *)
Theorem parse_allowed_losses_blank_entry
    fs f (line rest field : string) (n : Z) :
  f ≠ "" → no_line_end line = true →
  fs !! f = Some (line +:+ nl +:+ rest) →
  field ∈ Py.split_on ","%char (line +:+ nl) → blank field = true →
  parse_allowed_losses fs (Some f) n = Raise ValueError.
Proof.
  intros Hf Hline Hfile Hin Hblank.
  rewrite (parse_allowed_losses_file _ _ _ _ Hf Hfile).
  rewrite readlines_line by done.
  by rewrite (mapM_int_Raise _ field Hin (int_blank _ Hblank)).
Qed.

(** ** Line ends *)

Lemma universal_newlines_no_CR (s : string) :
  no_char Py.CR s = true → Py.universal_newlines s = s.
Proof.
  induction s as [|c s IH]; [done|]. intros Hs.
  unfold no_char in Hs. simpl in Hs.
  apply andb_true_iff in Hs as [Hc%negb_true_iff%bool_decide_eq_false Hs].
  simpl. rewrite decide_False by done. by rewrite IH.
Qed.

Lemma universal_newlines_to_crlf (s : string) :
  no_char Py.CR s = true → Py.universal_newlines (to_crlf s) = s.
Proof.
  induction s as [|c s IH]; [done|]. intros Hs.
  unfold no_char in Hs. simpl in Hs.
  apply andb_true_iff in Hs as [Hc%negb_true_iff%bool_decide_eq_false Hs].
  simpl. destruct (decide (c = Py.LF)) as [->|Hlf].
  - simpl. by rewrite IH.
  - simpl. rewrite decide_False by done. by rewrite IH.
Qed.

Lemma readlines_to_crlf (s : string) :
  no_char Py.CR s = true → Py.readlines (to_crlf s) = Py.readlines s.
Proof.
  intros Hs. unfold Py.readlines.
  by rewrite universal_newlines_to_crlf, universal_newlines_no_CR.
Qed.

(** X3.  Line ends written as carriage return, line feed make no
    difference: the matrix, the mapping and the formula are those of
    the same matrix file with plain line feeds. *)
Theorem get_cnf_crlf `{Helpers} fs rf wf s t unigen lf (content : string) :
  no_char Py.CR content = true → lf ≠ Some rf →
  read_matrix (<[rf := to_crlf content]> fs) rf
  = read_matrix (<[rf := content]> fs) rf
  ∧ formula_of wf <$> get_cnf (<[rf := to_crlf content]> fs) rf wf s t unigen lf
    = formula_of wf <$> get_cnf (<[rf := content]> fs) rf wf s t unigen lf.
Proof.
  intros Hcr Hlf.
  assert (Hread : read_matrix (<[rf := to_crlf content]> fs) rf
                  = read_matrix (<[rf := content]> fs) rf).
  { unfold read_matrix, Py.open_read. rewrite !lookup_insert_eq. simpl.
    unfold read_matrix_text. by rewrite readlines_to_crlf. }
  split; [done|].
  apply get_cnf_of_matrix; [done|].
  intros n. by rewrite !parse_allowed_losses_other_file.
Qed.

(** X2.  The matrix that [read_matrix] returns has one row for every
    line of the file after the first two: none for a file of at most
    two lines, and an empty row for every blank line. *)
Theorem read_matrix_row_count fs filename (content : string) (matrix : list (list Z)) :
  fs !! filename = Some content →
  read_matrix fs filename = Ok matrix →
  length matrix = (length (Py.readlines content) - 2)%nat
  ∧ ∀ i line, drop 2 (Py.readlines content) !! i = Some line →
      ∃ row, matrix !! i = Some row ∧ length row = length (Py.split line).
Proof.
  intros Hfile. unfold read_matrix, Py.open_read. rewrite Hfile. simpl.
  unfold read_matrix_text. intros Hm%mapM_Ok_Forall2. split.
  - apply Forall2_length in Hm. by rewrite length_drop in Hm.
  - intros i line Hline.
    destruct (Forall2_lookup_l _ _ _ _ _ Hm Hline) as (row & Hrow & Hparse).
    exists row. split; [done|].
    apply mapM_Ok_Forall2, Forall2_length in Hparse. done.
Qed.

(** ** When [get_cnf] returns, and what it touches *)

Lemma clause_families_is_Ok `{Helpers} matrix (v : gmap string Py.val) :
  is_Ok (clause_families matrix v) ↔ Forall (λ k, is_Some (v !! k)) categories.
Proof.
  unfold clause_families, Py.dict_get, categories.
  rewrite !Forall_cons, Forall_nil.
  repeat match goal with
         | |- context [v !! ?k] => destruct (v !! k) eqn:?; simpl
         end;
    (split; [intros [fam Hfam]; try discriminate; by eauto 10
            |intros Hall; try (eexists; reflexivity);
             exfalso; repeat destruct Hall as [[? [=]] Hall];
             try by destruct Hall as [? [=]]]).
Qed.

Lemma clause_families_Raise `{Helpers} matrix (v : gmap string Py.val) e :
  clause_families matrix v = Raise e → e = KeyError.
Proof.
  unfold clause_families, Py.dict_get.
  repeat match goal with
         | |- context [v !! ?k] => destruct (v !! k); simpl
         end; by intros [=].
Qed.

(** X7.  [get_cnf] changes no file but the one it writes the formula
    to, and that file exists afterwards. *)
Theorem get_cnf_frame `{Helpers} fs rf wf s t unigen lf v fs' :
  get_cnf fs rf wf s t unigen lf = Ok (v, fs') →
  is_Some (fs' !! wf) ∧ ∀ f, f ≠ wf → fs' !! f = fs !! f.
Proof.
  intros (matrix & row0 & al & fam & line & _ & _ & _ & _ & _ & _ & ->)%get_cnf_Ok.
  split.
  - rewrite lookup_insert_eq. eauto.
  - intros f Hf. by rewrite lookup_insert_ne.
Qed.

(** X14.  The mapping that [get_cnf] returns is the same for both
    samplers, for every output file and with or without an
    allowed-losses file: it depends on the matrix file, s and t only. *)
Theorem get_cnf_mapping_independent `{Helpers}
    fs rf wf wf' s t unigen unigen' lf lf' v v' fs1 fs2 :
  get_cnf fs rf wf s t unigen lf = Ok (v, fs1) →
  get_cnf fs rf wf' s t unigen' lf' = Ok (v', fs2) →
  v = v'.
Proof.
  intros (matrix & _ & _ & _ & _ & Hm & _ & _ & -> & _)%get_cnf_Ok.
  intros (matrix' & _ & _ & _ & _ & Hm' & _ & _ & -> & _)%get_cnf_Ok.
  rewrite Hm in Hm'. by injection Hm' as <-.
Qed.

(** X8.  A matrix file of at most two lines, such as one that holds the
    two header lines and nothing else, makes [get_cnf] fail with
    IndexError. *)
Theorem get_cnf_no_rows `{Helpers} fs rf wf s t unigen lf (content : string) :
  fs !! rf = Some content →
  (length (Py.readlines content) ≤ 2)%nat →
  get_cnf fs rf wf s t unigen lf = Raise IndexError.
Proof.
  intros Hfile Hlen. unfold get_cnf, read_matrix, Py.open_read.
  rewrite Hfile. simpl. unfold read_matrix_text.
  by rewrite drop_ge.
Qed.

(** X9.  [get_cnf] returns only if the matrix file can be read and
    has a row after its first two lines, the allowed-losses file can be
    read, the mapping has the seven categories and, for unigen,
    [col_is_duplicate] has an entry at the index of the last column. *)
Theorem get_cnf_returns_only_if `{Helpers} fs rf wf s t unigen lf v fs' :
  get_cnf fs rf wf s t unigen lf = Ok (v, fs') →
  ∃ matrix row0,
    read_matrix fs rf = Ok matrix
    ∧ head matrix = Some row0
    ∧ is_Ok (parse_allowed_losses fs lf (Z.of_nat (length row0)))
    ∧ Forall (λ k, is_Some (create_variable_matrices matrix s t !! k)) categories
    ∧ (unigen = true →
       ∃ col_is_duplicate,
         create_variable_matrices matrix s t !! "col_is_duplicate"
         = Some col_is_duplicate
         ∧ is_Ok (Py.getitem col_is_duplicate (Z.of_nat (length row0) - 1))).
Proof.
  intros (matrix & row0 & al & fam & line & Hm & Hr & Ha & -> & Hf & Hl & _)%get_cnf_Ok.
  exists matrix, row0. repeat split; try done.
  - by exists al.
  - apply (clause_families_is_Ok matrix). by exists fam.
  - intros ->. apply first_line_unigen in Hl as (nv & Hnv & _).
    exists (fam_col_is_duplicate fam). split.
    + by apply clause_families_col_is_duplicate in Hf.
    + by exists nv.
Qed.

(** X10.  When the mapping lacks one of the seven categories, [get_cnf]
    fails with KeyError, with and without unigen. *)
Theorem get_cnf_missing_category `{Helpers}
    fs rf wf s t unigen lf matrix row0 (key : string) :
  read_matrix fs rf = Ok matrix →
  head matrix = Some row0 →
  is_Ok (parse_allowed_losses fs lf (Z.of_nat (length row0))) →
  key ∈ categories →
  create_variable_matrices matrix s t !! key = None →
  get_cnf fs rf wf s t unigen lf = Raise KeyError.
Proof.
  intros Hm Hr [al Ha] Hkey Hnone. unfold get_cnf.
  rewrite Hm. simpl. unfold Py.first. rewrite Hr. simpl. rewrite Ha. simpl.
  destruct (clause_families matrix _) as [fam|e] eqn:Hf; simpl.
  - assert (Hok : is_Ok (clause_families matrix
                           (create_variable_matrices matrix s t)))
      by by exists fam.
    apply (clause_families_is_Ok matrix) in Hok. rewrite Forall_forall in Hok.
    destruct (Hok key Hkey) as [x Hx]. congruence.
  - by apply clause_families_Raise in Hf as ->.
Qed.

Lemma pretty_nat_Z (n : nat) : pretty n = pretty (Z.of_nat n).
Proof. by destruct n. Qed.

Lemma str_items_no_line_end (l : list Py.val) :
  Forall (λ x, no_line_end (Py.str x) = true) l →
  no_line_end
    ((fix items (l : list Py.val) : string :=
        match l with
        | [] => ""
        | [x] => Py.str x
        | x :: l' => Py.str x +:+ ", " +:+ items l'
        end) l) = true.
Proof.
  induction 1 as [|x l Hx Hl IH]; [done|].
  destruct l as [|y l]; [done|].
  rewrite no_line_end_all_chars, !all_chars_app in *.
  by rewrite Hx, IH.
Qed.

Lemma str_no_line_end : ∀ v : Py.val, no_line_end (Py.str v) = true.
Proof.
  fix IH 1. intros [z|l].
  - simpl. rewrite no_line_end_all_chars. apply all_chars_pretty.
    intros [[] [] [] [] [] [] [] []]; by vm_compute.
  - assert (Hl : Forall (λ x, no_line_end (Py.str x) = true) l).
    { induction l as [|x l IHl]; constructor; [apply IH|apply IHl]. }
    apply str_items_no_line_end in Hl.
    change (no_line_end ("[" +:+ (fix items (l : list Py.val) : string :=
        match l with
        | [] => ""
        | [x] => Py.str x
        | x :: l' => Py.str x +:+ ", " +:+ items l'
        end) l +:+ "]") = true).
    rewrite no_line_end_all_chars, !all_chars_app in *.
    by rewrite Hl.
Qed.

(** X11.  The formula for unigen is the formula without unigen behind one
    more line: when the run with the header returns, so does the run
    without it, with the same mapping, and the two files differ by the
    header line only. *)
Theorem get_cnf_unigen_extends_plain `{Helpers} fs rf wf s t lf v fs' :
  get_cnf fs rf wf s t true lf = Ok (v, fs') →
  ∃ fs0 header body,
    get_cnf fs rf wf s t false lf = Ok (v, fs0)
    ∧ fs0 !! wf = Some body
    ∧ fs' !! wf = Some (header +:+ nl +:+ body)
    ∧ no_line_end header = true
    ∧ ∀ f, f ≠ wf → fs' !! f = fs0 !! f.
Proof.
  intros (matrix & row0 & al & fam & line & Hm & Hr & Ha & Hv & Hf & Hl & ->)%get_cnf_Ok.
  apply first_line_unigen in Hl as (nv & Hnv & ->).
  exists (<[wf := write_formula fam false ""]> fs),
    ("p cnf " +:+ Py.str nv +:+ " " +:+ pretty (length (written_clauses fam))),
    (joined (written_clauses fam)).
  split; [|split; [|split; [|split]]].
  - apply get_cnf_Ok. exists matrix, row0, al, fam, "". by repeat split.
  - by rewrite lookup_insert_eq, write_formula_joined.
  - by rewrite lookup_insert_eq, write_formula_joined, !app_assoc_s.
  - rewrite no_line_end_all_chars, !all_chars_app, <- !no_line_end_all_chars.
    rewrite str_no_line_end. simpl.
    rewrite no_line_end_all_chars, pretty_nat_Z. apply all_chars_pretty.
    intros [[] [] [] [] [] [] [] []]; by vm_compute.
  - intros f Hf'. by rewrite !lookup_insert_ne.
Qed.

(** X12.  What the output file held before does not matter: [get_cnf]
    gives the same mapping and formula whether or not the file it
    writes to existed, as long as it is neither of its input files. *)
Theorem get_cnf_overwrites `{Helpers} fs rf wf s t unigen lf (old : string) :
  wf ≠ rf → lf ≠ Some wf →
  formula_of wf <$> get_cnf (<[wf := old]> fs) rf wf s t unigen lf
  = formula_of wf <$> get_cnf (delete wf fs) rf wf s t unigen lf.
Proof.
  intros Hrf Hlf. apply get_cnf_of_matrix.
  - unfold read_matrix, Py.open_read.
    by rewrite lookup_insert_ne, lookup_delete_ne.
  - intros n. rewrite parse_allowed_losses_other_file by done.
    unfold parse_allowed_losses. destruct (falsy lf) eqn:Hfalsy; [done|].
    destruct lf as [f|]; [|done]. simpl. unfold Py.open_read.
    rewrite lookup_delete_ne; [done|congruence].
Qed.

(** ** convert_unigen_to_quicksample *)

Lemma universal_newlines_CR_LF (s : string) :
  Py.universal_newlines (String Py.CR (String Py.LF s))
  = String Py.LF (Py.universal_newlines s).
Proof. done. Qed.

Lemma universal_newlines_CR (c : ascii) (s : string) :
  c ≠ Py.LF →
  Py.universal_newlines (String Py.CR (String c s))
  = String Py.LF (Py.universal_newlines (String c s)).
Proof.
  intros Hc. remember (String c s) as s1 eqn:Hs1. simpl.
  destruct s1 as [|c1 s2]; [done|]. injection Hs1 as -> ->.
  by rewrite decide_False.
Qed.

Lemma universal_newlines_other (c : ascii) (s : string) :
  c ≠ Py.CR →
  Py.universal_newlines (String c s) = String c (Py.universal_newlines s).
Proof. intros Hc. simpl. by rewrite decide_False. Qed.

Lemma universal_newlines_CR_free (s : string) :
  no_char Py.CR (Py.universal_newlines s) = true.
Proof.
  assert (Hlen : ∀ n s, (String.length s ≤ n)%nat →
            no_char Py.CR (Py.universal_newlines s) = true);
    [|by apply (Hlen (String.length s))].
  clear s. induction n as [|n IH]; intros [|c s] Hn; try done.
  { simpl in Hn. lia. }
  simpl in Hn. destruct (decide (c = Py.CR)) as [->|Hc].
  - destruct s as [|c' s]; [done|]. simpl in Hn.
    destruct (decide (c' = Py.LF)) as [->|Hc'].
    + rewrite universal_newlines_CR_LF.
      change (no_char Py.CR (String Py.LF ?x)) with (no_char Py.CR x).
      apply IH. lia.
    + rewrite universal_newlines_CR by done.
      change (no_char Py.CR (String Py.LF ?x)) with (no_char Py.CR x).
      apply IH. simpl. lia.
  - rewrite universal_newlines_other by done.
    unfold no_char. simpl. rewrite bool_decide_eq_false_2 by done.
    apply IH. lia.
Qed.

Lemma split_keepends_lines (s : string) :
  no_char Py.CR s = true → Forall is_line (Py.split_keepends s).
Proof.
  induction s as [|c s IH]; [constructor|]. intros Hs.
  unfold no_char in Hs. simpl in Hs.
  apply andb_true_iff in Hs as [Hc%negb_true_iff%bool_decide_eq_false Hs].
  specialize (IH Hs). simpl.
  destruct (decide (c = Py.LF)) as [->|Hlf].
  - constructor; [|done]. exists "". split; [done|by left].
  - assert (Hcons : ∀ body, no_line_end body = true →
              no_line_end (String c body) = true).
    { intros body Hb. simpl.
      by rewrite !bool_decide_eq_false_2, Hb by done. }
    destruct (Py.split_keepends s) as [|l ls].
    + constructor; [|done]. exists (String c ""). split; [by apply Hcons|by right].
    + apply Forall_cons in IH as [(body & Hb & Hl) Hls].
      constructor; [|done]. exists (String c body).
      split; [by apply Hcons|].
      destruct Hl as [->| ->]; [by left|by right].
Qed.

Lemma readlines_lines (content : string) : Forall is_line (Py.readlines content).
Proof. apply split_keepends_lines, universal_newlines_CR_free. Qed.

Lemma lstrip_all_blank (ws : string) : blank ws = true → Py.lstrip ws = "".
Proof.
  intros Hws. rewrite <- (app_empty_r ws). by rewrite lstrip_blank.
Qed.

Lemma lstrip_app_blank (x ws : string) :
  blank ws = true →
  Py.lstrip (x +:+ ws)
  = match Py.lstrip x with
    | "" => ""
    | String c y => String c y +:+ ws
    end.
Proof.
  intros Hws. induction x as [|c x IH].
  - rewrite app_empty_l. by rewrite lstrip_all_blank.
  - rewrite app_String. simpl. destruct (Py.isspace c); [done|].
    by rewrite app_String.
Qed.

(** Blanks at the end of a text are stripped with the rest. *)
Lemma strip_app_blank (x ws : string) :
  blank ws = true → Py.strip (x +:+ ws) = Py.strip x.
Proof.
  intros Hws. unfold Py.strip. rewrite lstrip_app_blank by done.
  destruct (Py.lstrip x) as [|c y]; [done|].
  rewrite rev_app_s, lstrip_blank; [done|].
  unfold blank. by rewrite all_chars_rev.
Qed.

Lemma all_chars_slice_from_1 (P : ascii → bool) (s : string) :
  all_chars P s = true → all_chars P (slice_from_1 s) = true.
Proof. destruct s as [|c s]; [done|]. simpl. by intros [_ ?]%andb_true_iff. Qed.

Lemma converted_line_no_line_end (l : string) :
  is_line l → no_line_end (slice_from_1 (Py.strip l)) = true.
Proof.
  intros (body & Hb & Hl).
  assert (Hstrip : Py.strip l = Py.strip body).
  { destruct Hl as [->| ->]; [|done]. by apply strip_app_blank. }
  rewrite Hstrip, no_line_end_all_chars.
  apply all_chars_slice_from_1, all_chars_strip.
  by rewrite <- no_line_end_all_chars.
Qed.

Lemma foldl_write_joined {A} (g : A → string) (f : string) (l : list A) :
  foldl (λ f x, Py.write f (g x)) f l = f +:+ joined (g <$> l).
Proof.
  revert f. induction l as [|x l IH]; intros f; simpl.
  - by rewrite app_empty_r.
  - rewrite IH. unfold Py.write. by rewrite app_assoc_s.
Qed.

Lemma convert_unigen_to_quicksample_Ok fs unigen_outfile samples_outfile content :
  unigen_outfile ≠ samples_outfile →
  fs !! unigen_outfile = Some content →
  convert_unigen_to_quicksample fs unigen_outfile samples_outfile
  = Ok (<[samples_outfile :=
            joined ((λ l, slice_from_1 (Py.strip l) +:+ nl)
                      <$> Py.readlines content)]> fs).
Proof.
  intros Hne Hfile. unfold convert_unigen_to_quicksample, Py.open_read.
  rewrite Hfile. simpl. rewrite lookup_insert_ne, Hfile by done. simpl.
  rewrite foldl_write_joined, app_empty_l.
  by rewrite insert_insert_eq.
Qed.

(** X15.  The samples file that [convert_unigen_to_quicksample] writes
    has one line for every line of the unigen file, in order: the line
    without the blanks around it and without its first character.  No
    other file changes. *)
Theorem convert_unigen_lines fs unigen_outfile samples_outfile content :
  unigen_outfile ≠ samples_outfile →
  fs !! unigen_outfile = Some content →
  ∃ text,
    convert_unigen_to_quicksample fs unigen_outfile samples_outfile
    = Ok (<[samples_outfile := text]> fs)
    ∧ Py.readlines text
      = (λ l, slice_from_1 (Py.strip l) +:+ nl) <$> Py.readlines content.
Proof.
  intros Hne Hfile. eexists. split.
  - by apply convert_unigen_to_quicksample_Ok.
  - rewrite (list_fmap_compose (λ l, slice_from_1 (Py.strip l)) (λ b, b +:+ nl)).
    apply readlines_joined_lines, Forall_fmap.
    eapply Forall_impl; [apply readlines_lines|].
    intros l Hl. by apply converted_line_no_line_end.
Qed.

(** X16.  On a unigen file of samples, each on a line of its own with no
    blanks around it, the samples file holds the same samples without
    their first character, the "v" that unigen puts there. *)
Theorem convert_unigen_samples fs unigen_outfile samples_outfile
    (samples : list string) :
  unigen_outfile ≠ samples_outfile →
  Forall (λ smp, no_line_end smp = true ∧ Py.strip smp = smp) samples →
  fs !! unigen_outfile = Some (joined ((λ smp, smp +:+ nl) <$> samples)) →
  convert_unigen_to_quicksample fs unigen_outfile samples_outfile
  = Ok (<[samples_outfile :=
            joined ((λ smp, slice_from_1 smp +:+ nl) <$> samples)]> fs).
Proof.
  intros Hne Hsamples Hfile.
  rewrite (convert_unigen_to_quicksample_Ok _ _ _ _ Hne Hfile).
  rewrite readlines_joined_lines
    by (eapply Forall_impl; [done|]; by intros smp [? _]).
  do 3 f_equal. rewrite <- list_fmap_compose.
  apply Forall_fmap_ext. eapply Forall_impl; [done|].
  intros smp [_ Hstrip]. simpl.
  by rewrite strip_app_blank, Hstrip.
Qed.

(** X17.  Called with one file for both names,
    [convert_unigen_to_quicksample] leaves that file empty: it is
    emptied when it is opened for writing, before its lines are read. *)
Theorem convert_unigen_same_file fs file content :
  fs !! file = Some content →
  convert_unigen_to_quicksample fs file file = Ok (<[file := ""]> fs).
Proof.
  intros Hfile. unfold convert_unigen_to_quicksample, Py.open_read.
  rewrite Hfile. simpl. rewrite lookup_insert_eq. simpl.
  by rewrite insert_insert_eq.
Qed.

(** ** The file names of the driver *)

Lemma split_on_first (sep : ascii) (s : string) :
  ∃ w ws rest,
    Py.split_on sep s = w :: ws
    ∧ s = w +:+ rest
    ∧ no_char sep w = true
    ∧ (rest = "" ∨ ∃ r, rest = String sep r).
Proof.
  induction s as [|c s (w & ws & rest & Hsplit & -> & Hw & Hrest)].
  - exists "", [], "". split; [done|]. split; [done|]. split; [done|]. by left.
  - simpl. destruct (decide (c = sep)) as [->|Hc].
    + exists "", (Py.split_on sep (w +:+ rest)), (String sep (w +:+ rest)).
      split; [done|]. split; [done|]. split; [done|]. right. by eexists.
    + rewrite Hsplit. exists (String c w), ws, rest.
      split; [done|]. split; [done|]. split; [|done].
      unfold no_char in *. simpl.
      by rewrite bool_decide_eq_false_2, Hw by done.
Qed.

(** X18.  The shortened file name is the name of the matrix file up to
    its first dot, wherever that dot is: it has no dot, and the rest of
    the name is empty or starts with one. *)
Theorem shortened_filename_first_dot (filename : string) :
  ∃ rest,
    filename = shortened_filename filename +:+ rest
    ∧ no_char "."%char (shortened_filename filename) = true
    ∧ (rest = "" ∨ ∃ r, rest = String "." r).
Proof.
  unfold shortened_filename.
  destruct (split_on_first "." filename) as (w & ws & rest & -> & Hf & Hw & Hrest).
  exists rest. by repeat split.
Qed.

Lemma shortened_filename_app (x rest : string) :
  no_char "."%char x = true →
  shortened_filename (x +:+ String "." rest) = x.
Proof.
  intros Hx. unfold shortened_filename. by rewrite split_on_field.
Qed.

(** X19.  The formula file, the variables file, the output file of
    unigen and the samples file that the driver names are four
    different files for every name of the matrix file, and the samples
    file that [convert_unigen_to_quicksample] is given is the file of
    valid solutions that is read afterwards. *)
Theorem driver_files_distinct (filename : string) :
  NoDup [cnf_filename filename; variables_filename filename;
         unigen_outfile filename; samples_outfile filename]
  ∧ samples_outfile filename = valid_solutions filename.
Proof.
  unfold unigen_outfile, samples_outfile, valid_solutions,
    variables_filename, cnf_filename.
  rewrite !app_assoc_s. split; [|done].
  assert (Hinj : ∀ a b : string,
            a ≠ b → shortened_filename filename +:+ a
                    ≠ shortened_filename filename +:+ b).
  { intros a b Hab Heq. by apply (inj (String.app _)) in Heq. }
  repeat (apply NoDup_cons; split;
          [rewrite ?elem_of_cons, elem_of_nil;
           intros Hin; repeat destruct Hin as [Hin|Hin];
           try done; by apply Hinj in Hin|]).
  apply NoDup_nil_2.
Qed.

Lemma cnf_filename_same (filename : string) :
  cnf_filename filename = filename ↔
  ∃ x, no_char "."%char x = true ∧ filename = x +:+ ".tmp.formula.cnf".
Proof.
  split.
  - intros Heq. exists (shortened_filename filename). split; [|done].
    by destruct (shortened_filename_first_dot filename) as (? & _ & ? & _).
  - intros (x & Hx & ->). unfold cnf_filename.
    change (x +:+ ".tmp.formula.cnf") with (x +:+ String "." "tmp.formula.cnf").
    by rewrite shortened_filename_app.
Qed.

(** X20.  In the driver, where the formula goes to the shortened name
    followed by ".tmp.formula.cnf": a run of [get_cnf] leaves the matrix
    file as it was, unless the name of the matrix file is itself a name
    without dots followed by ".tmp.formula.cnf"; then the matrix file
    holds the formula afterwards. *)
Theorem driver_keeps_matrix_file `{Helpers} fs filename s t unigen lf v fs' :
  get_cnf fs filename (cnf_filename filename) s t unigen lf = Ok (v, fs') →
  ((¬ ∃ x, no_char "."%char x = true ∧ filename = x +:+ ".tmp.formula.cnf") →
   fs' !! filename = fs !! filename)
  ∧ ((∃ x, no_char "."%char x = true ∧ filename = x +:+ ".tmp.formula.cnf") →
     fs' !! filename = fs' !! cnf_filename filename).
Proof.
  intros (matrix & row0 & al & fam & line & _ & _ & _ & _ & _ & _ & ->)%get_cnf_Ok.
  split.
  - intros Hform. rewrite lookup_insert_ne; [done|].
    by rewrite cnf_filename_same.
  - intros Hform%cnf_filename_same. by rewrite Hform.
Qed.

Lemma get_cnf_steps `{Helpers} fs rf wf s t unigen lf matrix row0 allowed fam :
  read_matrix fs rf = Ok matrix →
  head matrix = Some row0 →
  parse_allowed_losses fs lf (Z.of_nat (length row0)) = Ok allowed →
  clause_families matrix (create_variable_matrices matrix s t) = Ok fam →
  get_cnf fs rf wf s t unigen lf
  = line ← first_line fam (length row0) unigen;
    Ok (create_variable_matrices matrix s t,
        <[wf := write_formula fam unigen line]> fs).
Proof.
  intros Hm Hr Ha Hf. unfold get_cnf.
  rewrite Hm; simpl. unfold Py.first. rewrite Hr; simpl.
  rewrite Ha; simpl. by rewrite Hf.
Qed.

(** X13.  With unigen, a matrix file whose first row is blank makes
    [get_cnf] fail with IndexError when the mapping has no column
    variables: the entry it reads is the one at index -1. *)
Theorem get_cnf_no_columns `{Helpers} fs rf wf s t lf rest :
  read_matrix fs rf = Ok ([] :: rest) →
  is_Ok (parse_allowed_losses fs lf 0) →
  Forall (λ k, is_Some (create_variable_matrices ([] :: rest) s t !! k))
    categories →
  create_variable_matrices ([] :: rest) s t !! "col_is_duplicate"
  = Some (Py.List []) →
  get_cnf fs rf wf s t true lf = Raise IndexError.
Proof.
  intros Hm [al Ha] Hkeys Hcol.
  apply (clause_families_is_Ok ([] :: rest)) in Hkeys as [fam Hfam].
  rewrite (get_cnf_steps _ _ _ _ _ _ _ _ [] al fam Hm eq_refl Ha Hfam).
  apply clause_families_col_is_duplicate in Hfam.
  rewrite Hcol in Hfam. injection Hfam as Hfam.
  unfold first_line. by rewrite <- Hfam.
Qed.

(** X21.  The files that [clean_up] asks to remove are the files the
    driver named: the formula, the valid samples, the variables file
    and, for unigen, the output of unigen, else the samples file of
    quicksampler. *)
Theorem clean_up_driver_files (filename : string) (unigen : bool) :
  clean_up (shortened_filename filename) unigen
  = String.app "rm "
      <$> [cnf_filename filename; valid_solutions filename;
           variables_filename filename;
           if unigen then unigen_outfile filename
           else cnf_filename filename +:+ ".samples"].
Proof.
  unfold clean_up, unigen_outfile, valid_solutions, variables_filename,
    cnf_filename.
  destruct unigen; simpl; by rewrite !app_assoc_s.
Qed.

(** ** Runs of the further properties *)

Lemma read_matrix_round_trip_witness :
  (no_line_end "3" = true ∧ no_line_end "3" = true
   ∧ Forall (Forall (λ z, (digits_of z ≤ Py.max_str_digits)%nat)) ragged_matrix
   ∧ ragged_disk !! "m.txt"
     = Some ("3" +:+ nl +:+ "3" +:+ nl +:+ render_matrix ragged_matrix))
  ∧ read_matrix ragged_disk "m.txt" = Ok ragged_matrix.
Proof.
  split.
  { split; [by_evaluation|]. split; [by_evaluation|].
    split; by_evaluation. }
  apply (read_matrix_round_trip ragged_disk "m.txt" "3" "3"); by_evaluation.
Defined.

Lemma parse_allowed_losses_round_trip_witness :
  ("losses.txt" ≠ "" ∧ [3; 0] ≠ []
   ∧ Forall (λ z, (digits_of z ≤ Py.max_str_digits)%nat) [3; 0]
   ∧ losses_disk !! "losses.txt" = Some (render_losses [3; 0] +:+ "7" +:+ nl))
  ∧ parse_allowed_losses losses_disk (Some "losses.txt") 2
    = Ok (list_to_set [3; 0]).
Proof.
  split.
  { split; [by_evaluation|]. split; [by_evaluation|].
    split; by_evaluation. }
  apply (parse_allowed_losses_round_trip losses_disk "losses.txt" [3; 0]
           ("7" +:+ nl) 2); by_evaluation.
Defined.

Lemma get_cnf_returns_only_if_witness :
  (get_cnf (H := probe) disk "m.txt" "out.cnf" 2 2 true None
   = Ok (probe_vars, <["out.cnf" := formula_unigen]> disk))
  ∧ ∃ matrix row0,
      read_matrix disk "m.txt" = Ok matrix
      ∧ head matrix = Some row0
      ∧ is_Ok (parse_allowed_losses disk None (Z.of_nat (length row0)))
      ∧ Forall (λ k, is_Some (probe_variables matrix 2 2 !! k)) categories
      ∧ (true = true →
         ∃ col_is_duplicate,
           probe_variables matrix 2 2 !! "col_is_duplicate"
           = Some col_is_duplicate
           ∧ is_Ok (Py.getitem col_is_duplicate
                      (Z.of_nat (length row0) - 1))).
Proof.
  split; [by_evaluation|].
  apply (get_cnf_returns_only_if (H := probe)
           disk "m.txt" "out.cnf" 2 2 true None
           probe_vars (<["out.cnf" := formula_unigen]> disk)).
  by_evaluation.
Defined.

Lemma parse_allowed_losses_first_line_witness :
  ("losses.txt" ≠ "" ∧ no_line_end "3,0" = true
   ∧ losses_disk !! "losses.txt" = Some ("3,0" +:+ nl +:+ "7" +:+ nl)
   ∧ losses_disk' !! "losses.txt" = Some ("3,0" +:+ nl +:+ ""))
  ∧ parse_allowed_losses losses_disk (Some "losses.txt") 2
    = parse_allowed_losses losses_disk' (Some "losses.txt") 5.
Proof.
  split; [repeat split; by_evaluation|].
  apply (parse_allowed_losses_first_line losses_disk losses_disk'
           "losses.txt" "3,0" ("7" +:+ nl) "" 2 5); by_evaluation.
Defined.

Lemma parse_allowed_losses_blank_entry_witness :
  ("losses.txt" ≠ "" ∧ no_line_end "0,1," = true
   ∧ comma_disk !! "losses.txt" = Some ("0,1," +:+ nl +:+ "")
   ∧ nl ∈ Py.split_on ","%char ("0,1," +:+ nl) ∧ blank nl = true)
  ∧ parse_allowed_losses comma_disk (Some "losses.txt") 2 = Raise ValueError.
Proof.
  split; [repeat split; by_evaluation|].
  apply (parse_allowed_losses_blank_entry comma_disk "losses.txt" "0,1," "" nl 2);
    by_evaluation.
Defined.

Lemma get_cnf_crlf_witness :
  (no_char Py.CR matrix_txt = true ∧ None ≠ Some "m.txt")
  ∧ read_matrix (<["m.txt" := to_crlf matrix_txt]> disk) "m.txt"
    = read_matrix (<["m.txt" := matrix_txt]> disk) "m.txt"
  ∧ formula_of "out.cnf"
      <$> get_cnf (H := probe) (<["m.txt" := to_crlf matrix_txt]> disk)
            "m.txt" "out.cnf" 2 2 true None
    = formula_of "out.cnf"
      <$> get_cnf (H := probe) (<["m.txt" := matrix_txt]> disk)
            "m.txt" "out.cnf" 2 2 true None.
Proof.
  split; [repeat split; by_evaluation|].
  apply (get_cnf_crlf (H := probe) disk "m.txt" "out.cnf" 2 2 true None matrix_txt);
    by_evaluation.
Defined.

Lemma read_matrix_row_count_witness :
  (ragged_disk !! "m.txt" = Some ragged_txt
   ∧ read_matrix ragged_disk "m.txt" = Ok ragged_matrix)
  ∧ length ragged_matrix = (length (Py.readlines ragged_txt) - 2)%nat
  ∧ ∀ i line,
      drop 2 (Py.readlines ragged_txt) !! i = Some line →
      ∃ row, ragged_matrix !! i = Some row
             ∧ length row = length (Py.split line).
Proof.
  split; [repeat split; by_evaluation|].
  apply (read_matrix_row_count ragged_disk "m.txt"); by_evaluation.
Defined.

Lemma get_cnf_frame_witness :
  (get_cnf (H := probe) disk "m.txt" "out.cnf" 2 2 false None
   = Ok (probe_vars, <["out.cnf" := formula_plain]> disk))
  ∧ is_Some ((<["out.cnf" := formula_plain]> disk) !! "out.cnf")
  ∧ ∀ f, f ≠ "out.cnf" →
      (<["out.cnf" := formula_plain]> disk) !! f = disk !! f.
Proof.
  split; [by_evaluation|].
  apply (get_cnf_frame (H := probe) disk "m.txt" "out.cnf" 2 2 false None
           probe_vars).
  by_evaluation.
Defined.

Lemma get_cnf_no_rows_witness :
  (header_only_disk !! "m.txt" = Some ("2" +:+ nl +:+ "2" +:+ nl)
   ∧ (length (Py.readlines ("2" +:+ nl +:+ "2" +:+ nl)) ≤ 2)%nat)
  ∧ get_cnf (H := probe) header_only_disk "m.txt" "out.cnf" 2 2 true None
    = Raise IndexError.
Proof.
  split; [repeat split; by_evaluation|].
  apply (get_cnf_no_rows (H := probe) header_only_disk "m.txt" "out.cnf"
           2 2 true None ("2" +:+ nl +:+ "2" +:+ nl)); by_evaluation.
Defined.

Lemma get_cnf_missing_category_witness :
  (read_matrix disk "m.txt" = Ok [[0; 1]; [1; 0]]
   ∧ head [[0; 1]; [1; 0]] = Some [0; 1]
   ∧ is_Ok (parse_allowed_losses disk None (Z.of_nat (length [0; 1])))
   ∧ "is_two" ∈ categories
   ∧ create_variable_matrices (Helpers := probe_without "is_two")
       [[0; 1]; [1; 0]] 2 2 !! "is_two" = None)
  ∧ get_cnf (H := probe_without "is_two") disk "m.txt" "out.cnf" 2 2 false None
    = Raise KeyError.
Proof.
  assert (Hlosses : is_Ok (parse_allowed_losses disk None
                             (Z.of_nat (length [0; 1]))))
    by by eexists.
  split; [repeat split; try done; by_evaluation|].
  apply (get_cnf_missing_category (H := probe_without "is_two")
           disk "m.txt" "out.cnf" 2 2 false None [[0; 1]; [1; 0]] [0; 1] "is_two");
    try done; by_evaluation.
Defined.

Lemma get_cnf_unigen_extends_plain_witness :
  (get_cnf (H := probe) disk "m.txt" "out.cnf" 2 2 true None
   = Ok (probe_vars, <["out.cnf" := formula_unigen]> disk))
  ∧ ∃ fs0 header body,
      get_cnf (H := probe) disk "m.txt" "out.cnf" 2 2 false None
      = Ok (probe_vars, fs0)
      ∧ fs0 !! "out.cnf" = Some body
      ∧ (<["out.cnf" := formula_unigen]> disk) !! "out.cnf"
        = Some (header +:+ nl +:+ body)
      ∧ no_line_end header = true
      ∧ ∀ f, f ≠ "out.cnf" →
          (<["out.cnf" := formula_unigen]> disk) !! f = fs0 !! f.
Proof.
  split; [by_evaluation|].
  apply (get_cnf_unigen_extends_plain (H := probe)
           disk "m.txt" "out.cnf" 2 2 None).
  by_evaluation.
Defined.

Lemma get_cnf_overwrites_witness :
  ("out.cnf" ≠ "m.txt" ∧ Some "losses.txt" ≠ Some "out.cnf")
  ∧ formula_of "out.cnf"
      <$> get_cnf (H := probe) (<["out.cnf" := "old"]> disk)
            "m.txt" "out.cnf" 2 2 true (Some "losses.txt")
    = formula_of "out.cnf"
      <$> get_cnf (H := probe) (delete "out.cnf" disk)
            "m.txt" "out.cnf" 2 2 true (Some "losses.txt").
Proof.
  split; [repeat split; by_evaluation|].
  apply (get_cnf_overwrites (H := probe) disk "m.txt" "out.cnf" 2 2 true
           (Some "losses.txt") "old"); by_evaluation.
Defined.

Lemma get_cnf_no_columns_witness :
  (read_matrix blank_row_disk "m.txt" = Ok ([] :: [])
   ∧ is_Ok (parse_allowed_losses blank_row_disk None 0)
   ∧ Forall (λ k, is_Some (create_variable_matrices (Helpers := probe)
                             ([] :: []) 2 2 !! k)) categories
   ∧ create_variable_matrices (Helpers := probe) ([] :: []) 2 2
       !! "col_is_duplicate" = Some (Py.List []))
  ∧ get_cnf (H := probe) blank_row_disk "m.txt" "out.cnf" 2 2 true None
    = Raise IndexError.
Proof.
  assert (Hlosses : is_Ok (parse_allowed_losses blank_row_disk None 0))
    by by eexists.
  assert (Hkeys : Forall (λ k, is_Some (create_variable_matrices
                    (Helpers := probe) ([] :: []) 2 2 !! k)) categories)
    by by_evaluation.
  split; [repeat split; try done; by_evaluation|].
  apply (get_cnf_no_columns (H := probe) blank_row_disk "m.txt" "out.cnf"
           2 2 None []); try done; by_evaluation.
Defined.

Lemma convert_unigen_lines_witness :
  ("f.unigen" ≠ "f.samples.valid"
   ∧ padded_unigen_disk !! "f.unigen"
     = Some ("  v1 -2 0 " +:+ nl +:+ nl +:+ "v-1 2 0"))
  ∧ ∃ text,
      convert_unigen_to_quicksample padded_unigen_disk "f.unigen" "f.samples.valid"
      = Ok (<["f.samples.valid" := text]> padded_unigen_disk)
      ∧ Py.readlines text
        = (λ l, slice_from_1 (Py.strip l) +:+ nl)
            <$> Py.readlines ("  v1 -2 0 " +:+ nl +:+ nl +:+ "v-1 2 0").
Proof.
  split; [repeat split; by_evaluation|].
  apply (convert_unigen_lines padded_unigen_disk "f.unigen" "f.samples.valid");
    by_evaluation.
Defined.

Lemma convert_unigen_samples_witness :
  ("f.unigen" ≠ "f.samples.valid"
   ∧ Forall (λ smp, no_line_end smp = true ∧ Py.strip smp = smp) unigen_samples
   ∧ unigen_disk !! "f.unigen"
     = Some (joined ((λ smp, smp +:+ nl) <$> unigen_samples)))
  ∧ convert_unigen_to_quicksample unigen_disk "f.unigen" "f.samples.valid"
    = Ok (<["f.samples.valid" := "1 -2 0" +:+ nl +:+ "-1 2 0" +:+ nl]> unigen_disk).
Proof.
  assert (Hsamples : Forall (λ smp, no_line_end smp = true ∧ Py.strip smp = smp)
                       unigen_samples)
    by (repeat constructor; by_evaluation).
  split; [repeat split; try done; by_evaluation|].
  apply (convert_unigen_samples unigen_disk "f.unigen" "f.samples.valid"
           unigen_samples); try done; by_evaluation.
Defined.

Lemma convert_unigen_same_file_witness :
  (unigen_disk !! "f.unigen" = Some ("v1 -2 0" +:+ nl +:+ "v-1 2 0" +:+ nl))
  ∧ convert_unigen_to_quicksample unigen_disk "f.unigen" "f.unigen"
    = Ok (<["f.unigen" := ""]> unigen_disk).
Proof.
  split; [by_evaluation|].
  apply (convert_unigen_same_file unigen_disk "f.unigen"
           ("v1 -2 0" +:+ nl +:+ "v-1 2 0" +:+ nl)).
  by_evaluation.
Defined.

Lemma driver_keeps_matrix_file_witness :
  (get_cnf (H := probe) disk "m.txt" (cnf_filename "m.txt") 2 2 false None
   = Ok (probe_vars, driver_disk))
  ∧ ((¬ ∃ x, no_char "."%char x = true ∧ "m.txt" = x +:+ ".tmp.formula.cnf") →
     driver_disk !! "m.txt" = disk !! "m.txt")
  ∧ ((∃ x, no_char "."%char x = true ∧ "m.txt" = x +:+ ".tmp.formula.cnf") →
     driver_disk !! "m.txt" = driver_disk !! cnf_filename "m.txt").
Proof.
  split; [by_evaluation|].
  apply (driver_keeps_matrix_file (H := probe) disk "m.txt" 2 2 false
           None probe_vars driver_disk).
  by_evaluation.
Defined.

Lemma get_cnf_mapping_independent_witness :
  (get_cnf (H := probe) disk "m.txt" "out.cnf" 2 2 true None
   = Ok (probe_vars, <["out.cnf" := formula_unigen]> disk)
   ∧ get_cnf (H := probe) disk "m.txt" "m.tmp.formula.cnf" 2 2 false
       (Some "losses.txt") = Ok (probe_vars, driver_disk))
  ∧ probe_vars = probe_vars.
Proof.
  split; [split; by_evaluation|].
  apply (get_cnf_mapping_independent (H := probe) disk "m.txt" "out.cnf"
           "m.tmp.formula.cnf" 2 2 true false None (Some "losses.txt")
           probe_vars probe_vars (<["out.cnf" := formula_unigen]> disk)
           driver_disk); by_evaluation.
Defined.
